(** * Image upload gateway (main.go): a shallow embedding and its properties

    The program is one Go file: an HTTP server with two routes, both wrapped
    by [authMiddleware]; [uploadHandler] validates up to five files of a
    multipart form and forwards each one to an S3-compatible bucket.  The
    embedding follows the revision of main.go that has [authMiddleware],
    [healthHandler] and the [images] field.

    Modelling choices.
    - Go strings are byte strings: Rocq [string].
    - Go maps ([http.Header], [multipart.Form.File], the [allowed] table) are
      [gmap string _].
    - A Go slice that is only ever [nil] or appended to is a [list]; [nil] is
      the empty list.
    - The package-level variables [bucketName], [publicURL], [apiKey] are the
      fields of [Config]; they are written once, at startup.
    - The outside world touched by a request (the bucket behind [s3Client]
      and the random source behind [uuid.New]) is the record [World], threaded
      through a state monad.  What the backend answers and which identifiers
      are drawn is left to an oracle [Env], so every theorem holds for all
      backends. *)

From Stdlib Require Import ZArith Lia Ascii String DecimalString.
From stdpp Require Import gmap strings list fin_maps.

Open Scope string_scope.

(** ** Standard-library string functions used by main.go *)

Module GoStrings.

(** ASCII upper-case letters, as in [strings.ToLower]'s byte loop. *)
Definition is_upper (c : ascii) : bool :=
  let n := nat_of_ascii c in (65 <=? n)%nat && (n <=? 90)%nat.

Definition lower_byte (c : ascii) : ascii :=
  if is_upper c then ascii_of_nat (nat_of_ascii c + 32) else c.

(** [strings.ToLower].  Go lowers every Unicode letter; the bytes of a
    non-ASCII rune are left alone here.  No rune outside ASCII lowers to one
    of the letters of [.jpg], [.jpeg], [.png], [.webp], so the two agree on
    every comparison main.go makes. *)
Fixpoint ToLower (s : string) : string :=
  match s with
  | EmptyString => EmptyString
  | String c rest => String (lower_byte c) (ToLower rest)
  end.

(** [os.IsPathSeparator] on Unix. *)
Definition IsPathSeparator (c : ascii) : bool := Ascii.eqb c "/".

(** [path[i:]] *)
Fixpoint str_from (i : nat) (path : string) : string :=
  match i, path with
  | O, _ => path
  | S j, String _ rest => str_from j rest
  | S _, EmptyString => EmptyString
  end.

(** The loop of [filepath.Ext]:
<<
  for i := len(path) - 1; i >= 0 && !os.IsPathSeparator(path[i]); i-- {
      if path[i] == '.' { return path[i:] }
  }
  return (the empty string)
>>
    [Ext_loop path n] runs it from [i = n - 1] downwards. *)
Fixpoint Ext_loop (path : string) (n : nat) : string :=
  match n with
  | O => EmptyString
  | S i =>
      match String.get i path with
      | Some c =>
          if IsPathSeparator c then EmptyString
          else if Ascii.eqb c "." then str_from i path
          else Ext_loop path i
      | None => EmptyString
      end
  end.

Definition Ext (path : string) : string := Ext_loop path (String.length path).

(** [fmt.Sprintf("%d", n)] for a length. *)
Definition itoa (n : nat) : string := NilZero.string_of_uint (Nat.to_uint n).

End GoStrings.

Import GoStrings.

(** ** HTTP and JSON, as far as main.go uses them *)

Module Http.

(** A JSON document.  An object is a finite map: the order of its members
    carries no meaning, and a member left out by [omitempty] is absent. *)
#[warnings="-register-all"]
Inductive json : Type :=
  | JNull
  | JBool (b : bool)
  | JNum (n : Z)
  | JStr (s : string)
  | JArr (items : list json)
  | JObj (members : gmap string json).

(** [json.Marshal] goes through an interface; here a class. *)
Class Marshal (A : Type) := marshal : A -> json.

(** A [[]string]: the [nil] slice is written [null], any other an array. *)
Definition marshal_strings (l : list string) : json :=
  match l with
  | [] => JNull
  | _ => JArr (JStr <$> l)
  end.

#[export] Instance marshal_map : Marshal (gmap string json) := JObj.

(** [textproto.CanonicalMIMEHeaderKey] on a key made of letters, digits and
    hyphens: the first letter and each letter after a hyphen in upper case,
    the others in lower case. *)
Definition upper_byte (c : ascii) : ascii :=
  let n := nat_of_ascii c in
  if (97 <=? n)%nat && (n <=? 122)%nat then ascii_of_nat (n - 32) else c.

Fixpoint canonical_from (upper : bool) (s : string) : string :=
  match s with
  | EmptyString => EmptyString
  | String c rest =>
      String (if upper then upper_byte c else lower_byte c)
             (canonical_from (Ascii.eqb c "-") rest)
  end.

Definition CanonicalMIMEHeaderKey (s : string) : string := canonical_from true s.

(** [http.Header]: canonical key to values.  The server stores the keys of
    an incoming request in canonical form. *)
Abbreviation Header := (gmap string (list string)).

(** [Header.Get]: the first value under the canonical key, [EmptyString] if none. *)
Definition Header_Get (h : Header) (key : string) : string :=
  match h !! CanonicalMIMEHeaderKey key with
  | Some (v :: _) => v
  | _ => EmptyString
  end.

Definition Header_Set (h : Header) (key value : string) : Header :=
  <[CanonicalMIMEHeaderKey key := [value]]> h.

(** What a handler has written so far.  [rw_status] is [None] until the
    status line is sent. *)
Record ResponseWriter := mkResponseWriter {
  rw_header : Header;
  rw_status : option Z;
  rw_body : list json
}.

Definition new_ResponseWriter : ResponseWriter :=
  {| rw_header := ∅; rw_status := None; rw_body := [] |}.

Definition set_header (w : ResponseWriter) (key value : string) : ResponseWriter :=
  {| rw_header := Header_Set (rw_header w) key value;
     rw_status := rw_status w; rw_body := rw_body w |}.

(** [w.WriteHeader(code)]: only the first call counts.  (net/http panics
    on a code outside 100..999; main.go passes 200, 207, 400, 401 and 405
    only, and no statement below is about another code.) *)
Definition WriteHeader (w : ResponseWriter) (code : Z) : ResponseWriter :=
  match rw_status w with
  | Some _ => w
  | None => {| rw_header := rw_header w; rw_status := Some code; rw_body := rw_body w |}
  end.

(** [json.NewEncoder(w).Encode(v)]: one document written to the body; a
    first write sends status 200 when no status was sent before. *)
Definition Encode {A} `{Marshal A} (w : ResponseWriter) (v : A) : ResponseWriter :=
  let w' := WriteHeader w 200%Z in
  {| rw_header := rw_header w'; rw_status := rw_status w';
     rw_body := (rw_body w' ++ [marshal v])%list |}.

(** [multipart.File]: a readable stream, given by its length and bytes. *)
Record File := mkFile {
  file_len : Z;
  file_byte : Z -> Byte.byte
}.

(** [multipart.FileHeader].  [Open] is the outcome of [fileHeader.Open()]:
    [None] when it returns an error. *)
Record FileHeader := mkFileHeader {
  Filename : string;
  Size : Z;
  Open : option File
}.

(** [multipart.Form] *)
Record Form := mkForm {
  Value : gmap string (list string);
  File_ : gmap string (list FileHeader)
}.

Inductive RequestBody :=
  | NotMultipart
  | Multipart (form : Form).

Record Request := mkRequest {
  Method : string;
  Path : string;
  Header_ : Header;
  Body_ : RequestBody
}.

Definition MethodPost : string := "POST".

(** The segments of a path, split at the slashes: ["/a//b"] has the
    segments [""], ["a"], [""], ["b"]. *)
Fixpoint segments (path : string) : list string :=
  match path with
  | EmptyString => [EmptyString]
  | String c rest =>
      if Ascii.eqb c "/" then EmptyString :: segments rest
      else match segments rest with
           | seg :: more => String c seg :: more
           | [] => [String c EmptyString]
           end
  end.

(** The segments after the leading slash of a path that the mux leaves as
    it is: none but the last is empty, and none is ["."] or [".."]. *)
Fixpoint clean_segments (segs : list string) : bool :=
  match segs with
  | [] => false
  | [last] => negb (String.eqb last ".") && negb (String.eqb last "..")
  | seg :: more =>
      negb (String.eqb seg EmptyString) && negb (String.eqb seg ".")
      && negb (String.eqb seg "..") && clean_segments more
  end.

(** A path on which [ServeMux]'s [cleanPath] changes nothing: it starts
    with a slash, has no doubled slash and no [.] or [..] element (a slash at
    the end is kept).  The mux answers any other path itself, with a redirect
    to the cleaned path, and the server answers the request target [*]
    itself; no handler of main.go runs for those. *)
Definition clean_path (path : string) : bool :=
  match segments path with
  | EmptyString :: segs => clean_segments segs
  | _ => false
  end.

(** A request the mux hands to a registered handler. *)
Definition dispatched (r : Request) : Prop := clean_path (Path r) = true.

(** Bytes held by the non-file parts of a form: names and values. *)
Definition value_bytes (f : Form) : Z :=
  map_fold
    (fun k vs acc =>
       foldr (fun v a => Z.of_nat (String.length k) + Z.of_nat (String.length v) + a)%Z acc vs)
    0%Z (Value f).

(** Bytes held by the file parts of a form. *)
Definition file_bytes (f : Form) : Z :=
  map_fold (fun _ fhs acc => foldr (fun fh a => Size fh + a)%Z acc fhs) 0%Z (File_ f).

(** [r.ParseMultipartForm(maxMemory)], after [mime/multipart.Reader.ReadForm]:
    "File parts which can't be stored in memory will be stored on disk in
    temporary files.  It returns ErrMessageTooLarge if all non-file parts
    can't be stored in memory."  The non-file parts get [maxMemory] plus 10
    MiB; the file parts have no bound.  [None] is a non-nil error.  Go's
    parser has further ways to fail (a malformed query string, more than
    1000 parts, ...), which are not modelled: the statements below either
    take the result of the parse as a hypothesis or evaluate it on a form
    that Go parses. *)
Definition ParseMultipartForm (r : Request) (maxMemory : Z) : option Form :=
  match Body_ r with
  | NotMultipart => None
  | Multipart form =>
      if (value_bytes form >? maxMemory + Z.shiftl 10 20)%Z then None else Some form
  end.

(** [form.File[name]]: a missing key reads as the nil slice. *)
Definition form_files (f : Form) (name : string) : list FileHeader :=
  default [] (File_ f !! name).

End Http.

Import Http.

(** ** main.go *)

Module Main.

(** [type ApiResponse struct] with its JSON tags; [Failed] is [omitempty]. *)
Record ApiResponse := mkApiResponse {
  Status : Z;
  URLs : list string;
  Message : string;
  Failed : list string
}.

#[export] Instance marshal_ApiResponse : Marshal ApiResponse := fun a =>
  let members : gmap string json :=
    <["status" := JNum (Status a)]>
      (<["urls" := marshal_strings (URLs a)]>
         (<["message" := JStr (Message a)]> ∅)) in
  JObj (match Failed a with
        | [] => members
        | _ => <["failed" := JArr (JStr <$> Failed a)]> members
        end).

(** [type HealthResponse struct] *)
Record HealthResponse := mkHealthResponse {
  Success : bool;
  HealthMessage : string
}.

#[export] Instance marshal_HealthResponse : Marshal HealthResponse := fun h =>
  JObj (<["success" := JBool (Success h)]>
          (<["message" := JStr (HealthMessage h)]> ∅)).

(** The package-level variables set at startup.  [endpoint] is the
    [BaseEndpoint] given to [s3Client]. *)
Record Config := mkConfig {
  bucketName : string;
  publicURL : string;
  apiKey : string;
  endpoint : string
}.

(** [s3.PutObjectInput], the fields main.go fills in. *)
Record PutObjectInput := mkPutObjectInput {
  Bucket : string;
  Key : string;
  Body : File;
  ContentType : string
}.

(** The world outside the process: every [PutObject] call made so far
    (oldest first, failed ones included) and how many identifiers
    [uuid.New] has handed out. *)
Record World := mkWorld {
  puts : list PutObjectInput;
  drawn : nat
}.

(** The oracles: the text of the n-th identifier, and the error (if any)
    the bucket returns for a call, given the calls before it. *)
Record Env := mkEnv {
  uuid_String : nat -> string;
  PutObject_err : list PutObjectInput -> PutObjectInput -> option string
}.

(** State passing over [World]. *)
Definition M (A : Type) : Type := World -> A * World.

#[export] Instance M_ret : MRet M := fun A a w => (a, w).
#[export] Instance M_bind : MBind M := fun A B f m w =>
  let '(a, w') := m w in f a w'.

Definition HandlerFunc : Type := ResponseWriter -> Request -> M ResponseWriter.

(** [os.Getenv] over the process environment. *)
Definition Getenv (environ : gmap string string) (k : string) : string :=
  default EmptyString (environ !! k).

Definition nonempty (s : string) : bool := negb (String.eqb s EmptyString).

(** [initR2]: [None] stands for [log.Fatal].  [LoadDefaultConfig_err] is
    the error [config.LoadDefaultConfig] returns, [None] for [nil]; the
    function is the AWS SDK's and its outcome is taken as given. *)
Definition initR2 (environ : gmap string string) (LoadDefaultConfig_err : option string)
    : option (string * string * string) :=
  let bucketName := Getenv environ "R2_BUCKET_NAME" in
  let publicURL := Getenv environ "R2_PUBLIC_URL" in
  let accessKey := Getenv environ "R2_ACCESS_KEY" in
  let secretKey := Getenv environ "R2_SECRET_KEY" in
  let accountID := Getenv environ "R2_ACCOUNT_ID" in
  if nonempty bucketName && nonempty publicURL && nonempty accessKey
     && nonempty secretKey && nonempty accountID
  then
    match LoadDefaultConfig_err with
    | Some _ => None
    | None =>
        Some (bucketName, publicURL,
              "https://" +:+ accountID +:+ ".r2.cloudflarestorage.com")
    end
  else None.

(** [main] up to the point where the routes are registered; [environ] is
    the environment after [godotenv.Load]. *)
Definition startup (environ : gmap string string) (LoadDefaultConfig_err : option string)
    : option Config :=
  '(bucketName, publicURL, endpoint) ← initR2 environ LoadDefaultConfig_err;
  let apiKey := Getenv environ "API_KEY" in
  if nonempty apiKey
  then Some {| bucketName := bucketName; publicURL := publicURL;
               apiKey := apiKey; endpoint := endpoint |}
  else None.

(** The result of one iteration of the upload loop: an entry for [urls] or
    an entry for [failed]. *)
Inductive Outcome :=
  | Uploaded (url : string)
  | Rejected (entry : string).

Definition record (o : Outcome) (acc : list string * list string)
    : list string * list string :=
  match o with
  | Uploaded url => ((acc.1 ++ [url])%list, acc.2)
  | Rejected entry => (acc.1, (acc.2 ++ [entry])%list)
  end.

Definition successes (os : list Outcome) : list string :=
  omap (fun o => match o with Uploaded url => Some url | Rejected _ => None end) os.

Definition failures (os : list Outcome) : list string :=
  omap (fun o => match o with Rejected entry => Some entry | Uploaded _ => None end) os.

(** The extension test of the upload loop, as a proposition. *)
Definition ext_allowed (name : string) : Prop :=
  ToLower (Ext name) ∈ [".jpg"; ".jpeg"; ".png"; ".webp"].

(** The content type that goes with a lower-cased extension. *)
Definition content_type_of_ext (e : string) : string :=
  if decide (e = ".jpg" ∨ e = ".jpeg") then "image/jpeg"
  else if decide (e = ".png") then "image/png"
  else if decide (e = ".webp") then "image/webp"
  else "application/octet-stream".

Section Handlers.

Variable cfg : Config.
Variable env : Env.

Definition unauthorized_body : gmap string json :=
  <["status" := JNum 401]>
    (<["message" := JStr "Unauthorized: Invalid or missing API key"]> ∅).

Definition authMiddleware (next : HandlerFunc) : HandlerFunc := fun w r =>
  let key := Header_Get (Header_ r) "X-API-Key" in
  if negb (String.eqb key (apiKey cfg)) then
    let w := set_header w "Content-Type" "application/json" in
    let w := WriteHeader w 401 in
    mret (Encode w unauthorized_body)
  else next w r.

Definition healthHandler : HandlerFunc := fun w r =>
  let w := set_header w "Content-Type" "application/json" in
  mret (Encode w {| Success := true; HealthMessage := "successfully connect" |}).

Definition sendJSONMulti (w : ResponseWriter) (status : Z)
    (urls failed : list string) (message : string) : ResponseWriter :=
  let w := set_header w "Content-Type" "application/json" in
  let w := WriteHeader w status in
  Encode w {| Status := status; URLs := urls; Message := message; Failed := failed |}.

Definition allowed : gmap string bool :=
  <[".jpg" := true]> (<[".jpeg" := true]> (<[".png" := true]> (<[".webp" := true]> ∅))).

Definition isAllowedImage (header : FileHeader) : bool :=
  let ext := ToLower (Ext (Filename header)) in
  default false (allowed !! ext).

Definition generateFileName (original : string) : M string := fun world =>
  let ext := Ext original in
  ("uploads/" +:+ uuid_String env (drawn world) +:+ ext,
   {| puts := puts world; drawn := S (drawn world) |}).

Definition detectContentType (filename : string) : string :=
  let e := ToLower (Ext filename) in
  if String.eqb e ".jpg" || String.eqb e ".jpeg" then "image/jpeg"
  else if String.eqb e ".png" then "image/png"
  else if String.eqb e ".webp" then "image/webp"
  else "application/octet-stream".

(** [s3Client.PutObject]: the call is recorded, the bucket answers. *)
Definition PutObject (input : PutObjectInput) : M (option string) := fun world =>
  (PutObject_err env (puts world) input,
   {| puts := (puts world ++ [input])%list; drawn := drawn world |}).

Definition uploadToR2 (file : File) (filename : string) : M (string * option string) :=
  err ← PutObject {| Bucket := bucketName cfg; Key := filename; Body := file;
                     ContentType := detectContentType filename |};
  match err with
  | Some e => mret (EmptyString, Some e)
  | None =>
      let url := publicURL cfg +:+ "/" +:+ filename in
      mret (url, None)
  end.

(** The body of the [for _, fileHeader := range files] loop, on the two
    accumulators [urls] and [failed].  [file.Close()] leaves no trace in
    [World] and is not written. *)
Definition upload_step (fileHeader : FileHeader) (acc : list string * list string)
    : M (list string * list string) :=
  let '(urls, failed) := acc in
  if negb (isAllowedImage fileHeader) then
    mret (urls, (failed ++ [Filename fileHeader +:+ ": Invalid type"])%list)
  else
    match Open fileHeader with
    | None => mret (urls, (failed ++ [Filename fileHeader +:+ ": Failed to open"])%list)
    | Some file =>
        filename ← generateFileName (Filename fileHeader);
        '(url, err) ← uploadToR2 file filename;
        match err with
        | Some _ => mret (urls, (failed ++ [Filename fileHeader +:+ ": Upload failed"])%list)
        | None => mret ((urls ++ [url])%list, failed)
        end
    end.

Fixpoint upload_loop (files : list FileHeader) (acc : list string * list string)
    : M (list string * list string) :=
  match files with
  | [] => mret acc
  | fileHeader :: rest => acc' ← upload_step fileHeader acc; upload_loop rest acc'
  end.

Definition uploadHandler : HandlerFunc := fun w r =>
  if negb (String.eqb (Method r) MethodPost) then
    mret (sendJSONMulti w 405 [] [] "Method not allowed")
  else
    match ParseMultipartForm r (Z.shiftl 50 20) with
    | None => mret (sendJSONMulti w 400 [] [] "Invalid multipart form")
    | Some form =>
        let files := form_files form "images" in
        if (length files =? 0)%nat then
          mret (sendJSONMulti w 400 [] [] "At least 1 image required")
        else if (5 <? length files)%nat then
          mret (sendJSONMulti w 400 [] [] "Maximum 5 images allowed")
        else
          '(urls, failed) ← upload_loop files ([], []);
          if (length urls =? 0)%nat then
            mret (sendJSONMulti w 400 [] failed "All uploads failed")
          else if (0 <? length failed)%nat then
            let msg := itoa (length urls) +:+ " of " +:+ itoa (length files)
                       +:+ " images uploaded" in
            mret (sendJSONMulti w 207 urls failed msg)
          else
            let msg := itoa (length urls) +:+ " image(s) uploaded successfully" in
            mret (sendJSONMulti w 200 urls [] msg)
    end.

(** *** The loop read file by file

    What one iteration decides for its file, apart from the accumulators:
    [upload_step] is [file_outcome] followed by [record]
    (lemma [upload_step_outcome]). *)
Definition file_outcome (fileHeader : FileHeader) : M Outcome :=
  if negb (isAllowedImage fileHeader) then
    mret (Rejected (Filename fileHeader +:+ ": Invalid type"))
  else
    match Open fileHeader with
    | None => mret (Rejected (Filename fileHeader +:+ ": Failed to open"))
    | Some file =>
        filename ← generateFileName (Filename fileHeader);
        '(url, err) ← uploadToR2 file filename;
        match err with
        | Some _ => mret (Rejected (Filename fileHeader +:+ ": Upload failed"))
        | None => mret (Uploaded url)
        end
    end.

(** The outcomes of the files of a request, in the order of the field. *)
Fixpoint outcomes (files : list FileHeader) : M (list Outcome) :=
  match files with
  | [] => mret []
  | fileHeader :: rest =>
      o ← file_outcome fileHeader; os ← outcomes rest; mret (o :: os)
  end.

(** Whether an iteration calls the bucket: the log of calls grows. *)
Definition sent_to_backend (fileHeader : FileHeader) (world : World) : Prop :=
  puts (file_outcome fileHeader world).2 ≠ puts world.

(** The two registrations of [main] on the default mux, for a request the
    mux hands to a handler ([dispatched]): the pattern ["/upload"] matches
    that path only, the pattern ["/"] every other one.  A request that is not
    [dispatched] never reaches these handlers (the mux redirects an uncleaned
    path, the server answers [*]); [route] says nothing true about its
    response, and the statements about responses on all paths carry
    [dispatched] as a hypothesis.  Such a request calls no handler and
    leaves the world as it is; so does [route], since an uncleaned path is
    not ["/upload"]. *)
Definition route (r : Request) : HandlerFunc :=
  if String.eqb (Path r) "/upload" then authMiddleware uploadHandler
  else authMiddleware healthHandler.

(** One request served against a fresh writer. *)
Definition serve (r : Request) : M ResponseWriter :=
  route r new_ResponseWriter r.

End Handlers.

End Main.

Import Main.

(** ** Concrete inputs used by the examples below *)

Module Samples.

Definition cfg0 : Config :=
  {| bucketName := "bucket"; publicURL := "https://cdn.example.com";
     apiKey := "s3cret"; endpoint := "https://acct.r2.cloudflarestorage.com" |}.

Definition environ0 : gmap string string :=
  <["R2_BUCKET_NAME" := "bucket"]> (<["R2_PUBLIC_URL" := "https://cdn.example.com"]>
  (<["R2_ACCESS_KEY" := "ak"]> (<["R2_SECRET_KEY" := "sk"]>
  (<["R2_ACCOUNT_ID" := "acct"]> (<["API_KEY" := "s3cret"]> ∅))))).

(** A bucket that accepts everything; the n-th identifier is ["id"] followed by n. *)
Definition env_ok : Env :=
  {| uuid_String := fun n => "id" +:+ itoa n; PutObject_err := fun _ _ => None |}.

(** A bucket that refuses every second call. *)
Definition env_flaky : Env :=
  {| uuid_String := fun n => "id" +:+ itoa n;
     PutObject_err := fun before _ =>
       if Nat.even (length before) then None else Some "SlowDown" |}.

Definition world0 : World := {| puts := []; drawn := 0 |}.

Definition zeros (n : Z) : File := {| file_len := n; file_byte := fun _ => Byte.x00 |}.

Definition fh (name : string) (n : Z) : FileHeader :=
  {| Filename := name; Size := n; Open := Some (zeros n) |}.

(** A part whose temporary file can no longer be opened. *)
Definition fh_unopenable (name : string) (n : Z) : FileHeader :=
  {| Filename := name; Size := n; Open := None |}.

Definition post_images (key : string) (files : list FileHeader) : Request :=
  {| Method := "POST"; Path := "/upload";
     Header_ := <["X-Api-Key" := [key]]> ∅;
     Body_ := Multipart {| Value := ∅; File_ := <["images" := files]> ∅ |} |}.

Definition get_root (hdr : Header) : Request :=
  {| Method := "GET"; Path := "/"; Header_ := hdr; Body_ := NotMultipart |}.

End Samples.

(** Further sample inputs. *)
Module Inputs.
Import Samples.

Definition form_of (files : list FileHeader) : Form :=
  {| Value := ∅; File_ := <["images" := files]> ∅ |}.

(** A PNG, a GIF and a JPEG whose stream cannot be opened. *)
Definition files_mixed : list FileHeader :=
  [fh "a.PNG" 10; fh "b.gif" 3; fh_unopenable "c.jpg" 4].

Definition files_good : list FileHeader :=
  [fh "a.PNG" 10; fh "b.jpeg" 3].

Definition files_bad : list FileHeader :=
  [fh "notes.txt" 10; fh "b.gif" 3].

Definition files_six : list FileHeader :=
  [fh "1.png" 1; fh "2.png" 1; fh "3.png" 1; fh "4.png" 1; fh "5.png" 1; fh "6.png" 1].

(** One PNG of 60 MiB. *)
Definition files_big : list FileHeader := [fh "big.png" (Z.shiftl 60 20)].

End Inputs.

(** ** Vocabulary of the statements *)

(** The request carries the configured key. *)
Definition authenticated (cfg : Config) (r : Request) : Prop :=
  Header_Get (Header_ r) "X-API-Key" = apiKey cfg.

(** An authenticated POST to /upload whose form parses to [form]. *)
Definition upload_request (cfg : Config) (r : Request) (form : Form) : Prop :=
  authenticated cfg r ∧ Method r = "POST" ∧ Path r = "/upload" ∧
  ParseMultipartForm r (Z.shiftl 50 20) = Some form.

(** The response of the upload handler once the loop has produced the
    outcomes [os] for [n] files. *)
Definition upload_response (n : nat) (os : list Outcome) : ResponseWriter :=
  let urls := successes os in
  let failed := failures os in
  if (length urls =? 0)%nat then
    sendJSONMulti new_ResponseWriter 400 [] failed "All uploads failed"
  else if (0 <? length failed)%nat then
    sendJSONMulti new_ResponseWriter 207 urls failed
      (itoa (length urls) +:+ " of " +:+ itoa n +:+ " images uploaded")
  else
    sendJSONMulti new_ResponseWriter 200 urls []
      (itoa (length urls) +:+ " image(s) uploaded successfully").

(** The files of a request that reach the bucket: allowed extension and a
    stream that opens. *)
Definition reaches_backend (fileHeader : FileHeader) : bool :=
  isAllowedImage fileHeader && bool_decide (is_Some (Open fileHeader)).

(** A response made of the JSON content type, a status and one document. *)
Definition json_response (status : Z) (doc : json) : ResponseWriter :=
  {| rw_header := {["Content-Type" := ["application/json"]]};
     rw_status := Some status;
     rw_body := [doc] |}.

(** The 401 response of [authMiddleware]. *)
Definition unauthorized_response : ResponseWriter :=
  json_response 401
    (JObj (<["status" := JNum 401]>
             (<["message" := JStr "Unauthorized: Invalid or missing API key"]> ∅))).

(** The response of [healthHandler]. *)
Definition health_response : ResponseWriter :=
  json_response 200
    (JObj (<["success" := JBool true]>
             (<["message" := JStr "successfully connect"]> ∅))).

(** An [ApiResponse] sent with its own status. *)
Definition api_response (status : Z) (urls failed : list string) (message : string)
    : ResponseWriter :=
  json_response status
    (marshal {| Status := status; URLs := urls; Message := message; Failed := failed |}).

(** The world after the first [i] files of a request have been handled. *)
Definition world_after (cfg : Config) (env : Env) (files : list FileHeader)
    (i : nat) (world : World) : World :=
  (outcomes cfg env (take i files) world).2.

(** No dot and no path separator in [s]: the loop of [filepath.Ext] runs
    through such a suffix without stopping. *)
Fixpoint plain (s : string) : bool :=
  match s with
  | EmptyString => true
  | String c rest => negb (IsPathSeparator c) && negb (Ascii.eqb c ".") && plain rest
  end.

(** The call [uploadToR2] makes for a file of the loop, in a given world. *)
Definition put_input (cfg : Config) (env : Env) (fileHeader : FileHeader)
    (file : File) (world : World) : PutObjectInput :=
  let key := "uploads/" +:+ uuid_String env (drawn world) +:+ Ext (Filename fileHeader) in
  {| Bucket := bucketName cfg; Key := key; Body := file;
     ContentType := detectContentType key |}.


(** ** The calls of a request *)

(** The storage key built by [generateFileName] for [original] when [d]
    identifiers have been drawn. *)
Definition key_at (env : Env) (original : string) (d : nat) : string :=
  "uploads/" +:+ uuid_String env d +:+ Ext original.

(** The call [uploadToR2] makes for an opened file under that key. *)
Definition call_at (cfg : Config) (env : Env) (fileHeader : FileHeader)
    (file : File) (d : nat) : PutObjectInput :=
  {| Bucket := bucketName cfg; Key := key_at env (Filename fileHeader) d; Body := file;
     ContentType := detectContentType (key_at env (Filename fileHeader) d) |}.

(** The calls the upload loop makes for [files], in order, when [d]
    identifiers have been drawn before it: one for each file that has an
    allowed extension and opens. *)
Fixpoint loop_calls (cfg : Config) (env : Env) (files : list FileHeader) (d : nat)
    : list PutObjectInput :=
  match files with
  | [] => []
  | fileHeader :: rest =>
      if isAllowedImage fileHeader then
        match Open fileHeader with
        | Some file => call_at cfg env fileHeader file d :: loop_calls cfg env rest (S d)
        | None => loop_calls cfg env rest d
        end
      else loop_calls cfg env rest d
  end.

(** The public URL of the object written by a call. *)
Definition url_of (cfg : Config) (input : PutObjectInput) : string :=
  publicURL cfg +:+ "/" +:+ Key input.

(** The world once [calls] have been made. *)
Definition world_with (world : World) (calls : list PutObjectInput) : World :=
  {| puts := (puts world ++ calls)%list; drawn := drawn world + length calls |}.

(** A bucket that accepts every call, and one that refuses every call. *)
Definition accepts_all (env : Env) : Prop :=
  forall before input, PutObject_err env before input = None.

Definition refuses_all (env : Env) : Prop :=
  forall before input, PutObject_err env before input <> None.

(** The three reasons of a failure entry. *)
Definition failure_reasons : list string :=
  [": Invalid type"; ": Failed to open"; ": Upload failed"].

(** The statuses [main.go] writes. *)
Definition written_statuses : list Z := [200; 207; 400; 401; 405]%Z.

(** The six variables [main] requires. *)
Definition required_variables : list string :=
  ["R2_BUCKET_NAME"; "R2_PUBLIC_URL"; "R2_ACCESS_KEY"; "R2_SECRET_KEY";
   "R2_ACCOUNT_ID"; "API_KEY"].

Module MoreSamples.
Import Samples Inputs.

(** A bucket that refuses everything. *)
Definition env_down : Env :=
  {| uuid_String := fun n => "id" +:+ itoa n;
     PutObject_err := fun _ _ => Some "ServiceUnavailable" |}.

(** Two files with the same name. *)
Definition files_same_name : list FileHeader := [fh "cat.png" 10; fh "cat.png" 10].

(** The world after an earlier request has written one object. *)
Definition world1 : World :=
  {| puts := [call_at cfg0 env_ok (fh "old.png" 1) (zeros 1) 0]; drawn := 1 |}.

Definition put_images (key : string) (files : list FileHeader) : Request :=
  {| Method := "PUT"; Path := "/upload";
     Header_ := <["X-Api-Key" := [key]]> ∅;
     Body_ := Multipart (form_of files) |}.

Definition post_text (key : string) : Request :=
  {| Method := "POST"; Path := "/upload";
     Header_ := <["X-Api-Key" := [key]]> ∅;
     Body_ := NotMultipart |}.

Definition post_elsewhere (key : string) (files : list FileHeader) : Request :=
  {| Method := "POST"; Path := "/upload/";
     Header_ := <["X-Api-Key" := [key]]> ∅;
     Body_ := Multipart (form_of files) |}.

End MoreSamples.

(** The calls a request has added to the log. *)
Definition new_calls (world world' : World) : list PutObjectInput :=
  drop (length (puts world)) (puts world').

(** What every call of a request looks like: the configured bucket, an
    image content type read off the key, and a key made of the folder, an
    identifier drawn during the request and the extension of an accepted
    name. *)
Definition call_ok (cfg : Config) (env : Env) (world world' : World)
    (input : PutObjectInput) : Prop :=
  Bucket input = bucketName cfg /\
  ContentType input = content_type_of_ext (ToLower (Ext (Key input))) /\
  ContentType input ∈ ["image/jpeg"; "image/png"; "image/webp"] /\
  exists d name,
    drawn world <= d < drawn world' /\ ext_allowed name /\
    Key input = "uploads/" +:+ uuid_String env d +:+ Ext name /\
    Ext (Key input) = Ext name.

(** The log of a server that has only served requests: the i-th call ever
    made went to the configured bucket under the key of the i-th identifier
    and of an accepted name, and there are as many calls as identifiers
    drawn. *)
Definition log_ok (cfg : Config) (env : Env) (world : World) : Prop :=
  length (puts world) = drawn world /\
  forall i input, puts world !! i = Some input ->
    Bucket input = bucketName cfg /\
    exists name, ext_allowed name /\ Key input = key_at env name i.

(** ** The library functions on concrete inputs *)

Example Ext_png : Ext "photo.PNG" = ".PNG". Proof. reflexivity. Qed.
Example Ext_two_dots : Ext "a.tar.gz" = ".gz". Proof. reflexivity. Qed.
Example Ext_dir_dot : Ext "a.b/c" = EmptyString. Proof. reflexivity. Qed.
Example Ext_none : Ext "README" = EmptyString. Proof. reflexivity. Qed.
Example ToLower_png : ToLower ".PnG" = ".png". Proof. reflexivity. Qed.
Example itoa_12 : itoa 12 = "12". Proof. reflexivity. Qed.
Example itoa_0 : itoa 0 = "0". Proof. reflexivity. Qed.
Example canonical_api_key : CanonicalMIMEHeaderKey "X-API-Key" = "X-Api-Key".
Proof. reflexivity. Qed.
Example canonical_content_type : CanonicalMIMEHeaderKey "content-type" = "Content-Type".
Proof. reflexivity. Qed.
Example clean_upload : clean_path "/upload" = true. Proof. reflexivity. Qed.
Example clean_root : clean_path "/" = true. Proof. reflexivity. Qed.
Example clean_trailing_slash : clean_path "/upload/" = true. Proof. reflexivity. Qed.
Example unclean_double_slash : clean_path "//upload" = false. Proof. reflexivity. Qed.
Example unclean_dot_dot : clean_path "/x/../upload" = false. Proof. reflexivity. Qed.
Example unclean_dot : clean_path "/./upload" = false. Proof. reflexivity. Qed.
Example unclean_star : clean_path "*" = false. Proof. reflexivity. Qed.
Example unclean_relative : clean_path "upload" = false. Proof. reflexivity. Qed.
Example unclean_empty : clean_path EmptyString = false. Proof. reflexivity. Qed.

(** ** The upload loop *)

(** Case analysis on the answer of the bucket in the goal. *)
Ltac case_put :=
  match goal with
  | |- context [PutObject_err ?e ?before ?input] =>
      let E := fresh "Eput" in destruct (PutObject_err e before input) eqn:E
  end.

(** Unfolding of the state-passing combinators. *)
Ltac unfold_M := cbv beta iota zeta delta [mbind M_bind mret M_ret] in *.

Section LoopFacts.

Variable cfg : Config.
Variable env : Env.

Lemma upload_step_outcome fileHeader acc world :
  upload_step cfg env fileHeader acc world =
  let '(o, world') := file_outcome cfg env fileHeader world in (record o acc, world').
Proof.
  destruct acc as [urls failed].
  unfold upload_step, file_outcome.
  destruct (negb (isAllowedImage fileHeader)); [reflexivity |].
  destruct (Open fileHeader) as [file |]; [| reflexivity].
  unfold generateFileName, uploadToR2, PutObject; unfold_M; simpl.
  case_put; reflexivity.
Qed.

Lemma record_successes o acc :
  (record o acc).1 = (acc.1 ++ successes [o])%list.
Proof. destruct o; simpl; [reflexivity | by rewrite app_nil_r]. Qed.

Lemma record_failures o acc :
  (record o acc).2 = (acc.2 ++ failures [o])%list.
Proof. destruct o; simpl; [by rewrite app_nil_r | reflexivity]. Qed.

Lemma successes_cons o os : successes (o :: os) = (successes [o] ++ successes os)%list.
Proof. destruct o; reflexivity. Qed.

Lemma failures_cons o os : failures (o :: os) = (failures [o] ++ failures os)%list.
Proof. destruct o; reflexivity. Qed.

(** The loop appends, to what it was given, the successes and the failures
    of the per-file outcomes, each in the order of the files. *)
Lemma upload_loop_outcomes files : forall acc world,
  upload_loop cfg env files acc world =
  let '(os, world') := outcomes cfg env files world in
  ((acc.1 ++ successes os, acc.2 ++ failures os)%list, world').
Proof.
  induction files as [| fileHeader rest IH]; intros [urls failed] world.
  - simpl. unfold_M. by rewrite !app_nil_r.
  - cbn [upload_loop outcomes]. unfold_M.
    rewrite upload_step_outcome.
    destruct (file_outcome cfg env fileHeader world) as [o world1].
    rewrite IH.
    destruct (outcomes cfg env rest world1) as [os world2].
    rewrite record_successes, record_failures.
    rewrite (successes_cons o os), (failures_cons o os).
    cbn [fst snd]. by rewrite !app_assoc.
Qed.

Lemma outcomes_length files : forall world,
  length (outcomes cfg env files world).1 = length files.
Proof.
  induction files as [| fileHeader rest IH]; intros world; [reflexivity |].
  simpl. unfold_M.
  destruct (file_outcome cfg env fileHeader world) as [o world1].
  specialize (IH world1).
  destruct (outcomes cfg env rest world1) as [os world2].
  simpl in *. by rewrite IH.
Qed.

Lemma successes_failures_length os :
  length (successes os) + length (failures os) = length os.
Proof. induction os as [| [u | e] os IH]; simpl; lia. Qed.

End LoopFacts.

(** ** The upload handler behind the routes *)

Section ServeFacts.

Variable cfg : Config.
Variable env : Env.

Lemma serve_authenticated r :
  authenticated cfg r ->
  serve cfg env r =
  (if String.eqb (Path r) "/upload" then uploadHandler cfg env else healthHandler)
    new_ResponseWriter r.
Proof.
  intros Hauth. unfold authenticated in Hauth. unfold serve, route.
  destruct (String.eqb (Path r) "/upload");
    unfold authMiddleware; cbv zeta; by rewrite Hauth, String.eqb_refl.
Qed.

(** An upload request reaches the handler, passes the method test and
    parses; what is left is the count test, the loop and the response. *)
Lemma serve_upload_request r form world :
  upload_request cfg r form ->
  serve cfg env r world =
  let files := form_files form "images" in
  if (length files =? 0)%nat then
    (sendJSONMulti new_ResponseWriter 400 [] [] "At least 1 image required", world)
  else if (5 <? length files)%nat then
    (sendJSONMulti new_ResponseWriter 400 [] [] "Maximum 5 images allowed", world)
  else
    let '(os, world') := outcomes cfg env files world in
    (upload_response (length files) os, world').
Proof.
  intros (Hauth & Hmeth & Hpath & Hparse).
  rewrite serve_authenticated by done.
  rewrite Hpath. cbn [String.eqb Ascii.eqb Bool.eqb].
  unfold uploadHandler. rewrite Hmeth, Hparse. cbn [String.eqb Ascii.eqb Bool.eqb negb MethodPost].
  cbv zeta.
  destruct (length (form_files form "images") =? 0)%nat; [reflexivity |].
  destruct (5 <? length (form_files form "images"))%nat; [reflexivity |].
  unfold_M. rewrite upload_loop_outcomes.
  destruct (outcomes cfg env (form_files form "images") world) as [os world'].
  cbn [fst snd app]. unfold upload_response. cbv zeta.
  destruct (length (successes os) =? 0)%nat; [reflexivity |].
  destruct (0 <? length (failures os))%nat eqn:Hf; [reflexivity |].
  reflexivity.
Qed.

End ServeFacts.

Lemma sendJSONMulti_new status urls failed message :
  sendJSONMulti new_ResponseWriter status urls failed message =
  api_response status urls failed message.
Proof.
  unfold sendJSONMulti, api_response, json_response, Encode, WriteHeader,
    set_header, Header_Set, new_ResponseWriter; cbn.
  by rewrite insert_empty.
Qed.

Section LoopOrder.

Variable cfg : Config.
Variable env : Env.

Lemma successes_sublist os : (Uploaded <$> successes os) `sublist_of` os.
Proof.
  induction os as [| [u | e] os IH]; cbn.
  - constructor.
  - by apply sublist_skip.
  - by apply sublist_cons.
Qed.

Lemma failures_sublist os : (Rejected <$> failures os) `sublist_of` os.
Proof.
  induction os as [| [u | e] os IH]; cbn.
  - constructor.
  - by apply sublist_cons.
  - by apply sublist_skip.
Qed.

(** The i-th outcome is the outcome of the i-th file, in the world the
    files before it have left. *)
Lemma outcomes_lookup files : forall world i o,
  (outcomes cfg env files world).1 !! i = Some o ->
  exists fileHeader,
    files !! i = Some fileHeader /\
    o = (file_outcome cfg env fileHeader (world_after cfg env files i world)).1.
Proof.
  induction files as [| fileHeader rest IH]; intros world i o; [done |].
  unfold world_after. cbn [outcomes]. unfold_M.
  destruct (file_outcome cfg env fileHeader world) as [o0 world1] eqn:E0.
  destruct (outcomes cfg env rest world1) as [os world2] eqn:E1.
  destruct i as [| i]; cbn.
  - intros [= <-]. exists fileHeader. by rewrite E0.
  - intros Hi. unfold_M. rewrite E0.
    specialize (IH world1 i o). rewrite E1 in IH. destruct (IH Hi) as (fh & Hfh & Ho).
    exists fh. split; [done |].
    unfold world_after in Ho.
    by destruct (outcomes cfg env (take i rest) world1).
Qed.

End LoopOrder.

Section BackendCalls.

Variable cfg : Config.
Variable env : Env.

(** One iteration calls the bucket once if the file has an allowed
    extension and opens, and not at all otherwise. *)
Lemma file_outcome_puts fileHeader world :
  length (puts (file_outcome cfg env fileHeader world).2) =
  length (puts world) + (if reaches_backend fileHeader then 1 else 0).
Proof.
  unfold file_outcome, reaches_backend.
  destruct (isAllowedImage fileHeader); cbn [negb andb]; [| cbn; lia].
  destruct (Open fileHeader) as [file |]; [| cbn; lia].
  rewrite bool_decide_eq_true_2 by eauto.
  unfold generateFileName, uploadToR2, PutObject; unfold_M; cbn.
  case_put; cbn; rewrite length_app; cbn; lia.
Qed.

Lemma outcomes_puts files : forall world,
  length (puts (outcomes cfg env files world).2) =
  length (puts world) + length (filter reaches_backend files).
Proof.
  induction files as [| fileHeader rest IH]; intros world; [cbn; lia |].
  cbn [outcomes]. unfold_M.
  pose proof (file_outcome_puts fileHeader world) as H1.
  destruct (file_outcome cfg env fileHeader world) as [o world1].
  specialize (IH world1).
  destruct (outcomes cfg env rest world1) as [os world2].
  cbn [snd] in *. rewrite IH, H1.
  rewrite filter_cons. destruct (reaches_backend fileHeader); cbn.
  - rewrite decide_True by done. cbn. lia.
  - rewrite decide_False by (intros []). lia.
Qed.

End BackendCalls.

(** ** Claims about the upload handler *)

(** C1. An authenticated POST /upload whose form parses and holds N files
    under [images], 1 <= N <= 5, is answered with an [ApiResponse] whose
    [urls] and [failed] lists have N entries together; and every file with an
    allowed extension that opens is sent to the bucket, whatever happened to
    the files before it. *)
Theorem C1_one_outcome_per_file cfg env r form world :
  upload_request cfg r form ->
  1 <= length (form_files form "images") <= 5 ->
  exists status urls failed message world',
    serve cfg env r world = (api_response status urls failed message, world') /\
    length urls + length failed = length (form_files form "images") /\
    length (puts world') =
      length (puts world) + length (filter reaches_backend (form_files form "images")).
Proof.
  intros Hreq [Hlo Hhi].
  rewrite (serve_upload_request cfg env r form world Hreq). cbv zeta.
  set (files := form_files form "images") in *.
  destruct (Nat.eqb_spec (length files) 0) as [| _]; [lia |].
  destruct (Nat.ltb_spec 5 (length files)) as [| _]; [lia |].
  pose proof (outcomes_length cfg env files world) as Hlen.
  pose proof (outcomes_puts cfg env files world) as Hputs.
  destruct (outcomes cfg env files world) as [os world']. cbn [fst snd] in *.
  pose proof (successes_failures_length os) as Hsum.
  unfold upload_response. cbv zeta. rewrite !sendJSONMulti_new.
  destruct (Nat.eqb_spec (length (successes os)) 0) as [H0 |].
  - exists 400%Z, [], (failures os), "All uploads failed", world'.
    split; [done |]. cbn [length]. split; [lia | done].
  - destruct (Nat.ltb_spec 0 (length (failures os))) as [| Hf].
    + eexists 207%Z, (successes os), (failures os), _, world'.
      split; [done |]. split; [lia | done].
    + eexists 200%Z, (successes os), [], _, world'.
      split; [done |]. cbn [length]. split; [lia | done].
Qed.

Import Samples Inputs.

Lemma C1_one_outcome_per_file_witness :
  upload_request cfg0 (post_images "s3cret" files_mixed) (form_of files_mixed) /\
  1 <= length (form_files (form_of files_mixed) "images") <= 5 /\
  exists status urls failed message world',
    serve cfg0 env_ok (post_images "s3cret" files_mixed) world0 =
      (api_response status urls failed message, world') /\
    length urls + length failed = length (form_files (form_of files_mixed) "images") /\
    length (puts world') =
      length (puts world0) +
      length (filter reaches_backend (form_files (form_of files_mixed) "images")).
Proof.
  split; [repeat split |].
  split; [vm_compute; lia |].
  apply (C1_one_outcome_per_file cfg0 env_ok _ (form_of files_mixed) world0).
  - repeat split.
  - vm_compute; lia.
Defined.

(** C3. For an authenticated POST /upload with N files, 1 <= N <= 5, and
    the outcomes [os] of its files: if no file fails the status is 200, the
    message "N image(s) uploaded successfully" and the failure list empty; if
    some succeed and some fail the status is 207, the message "k of N images
    uploaded" with k the number of successes, and both lists are populated;
    if no file succeeds the status is 400, the message "All uploads failed"
    and the failure list holds all N entries. *)
Theorem C3_status_by_outcome cfg env r form world :
  upload_request cfg r form ->
  1 <= length (form_files form "images") <= 5 ->
  let n := length (form_files form "images") in
  let os := (outcomes cfg env (form_files form "images") world).1 in
  let world' := (outcomes cfg env (form_files form "images") world).2 in
  let k := length (successes os) in
  (failures os = [] ->
     k = n /\
     serve cfg env r world =
       (api_response 200 (successes os) []
          (itoa n +:+ " image(s) uploaded successfully"), world')) /\
  (successes os <> [] -> failures os <> [] ->
     serve cfg env r world =
       (api_response 207 (successes os) (failures os)
          (itoa k +:+ " of " +:+ itoa n +:+ " images uploaded"), world')) /\
  (successes os = [] ->
     length (failures os) = n /\
     serve cfg env r world =
       (api_response 400 [] (failures os) "All uploads failed", world')).
Proof.
  intros Hreq [Hlo Hhi] n os world' k.
  rewrite (serve_upload_request cfg env r form world Hreq). cbv zeta.
  fold n.
  destruct (Nat.eqb_spec n 0) as [| _]; [lia |].
  destruct (Nat.ltb_spec 5 n) as [| _]; [lia |].
  pose proof (outcomes_length cfg env (form_files form "images") world) as Hlen.
  fold os n in Hlen.
  pose proof (successes_failures_length os) as Hsum.
  subst os world'.
  destruct (outcomes cfg env (form_files form "images") world) as [os world'].
  cbn [fst snd] in *. subst k.
  unfold upload_response. cbv zeta. rewrite !sendJSONMulti_new.
  repeat split.
  - rewrite H in Hsum. cbn in Hsum. lia.
  - assert (length (successes os) = n) as Hk by (rewrite H in Hsum; cbn in Hsum; lia).
    rewrite H, Hk. cbn [length].
    destruct (Nat.eqb_spec n 0) as [| _]; [lia |]. reflexivity.
  - destruct (Nat.eqb_spec (length (successes os)) 0) as [H0 | _].
    + by apply nil_length_inv in H0.
    + destruct (Nat.ltb_spec 0 (length (failures os))) as [_ | Hf]; [reflexivity |].
      assert (length (failures os) = 0) as Hz by lia.
      by apply nil_length_inv in Hz.
  - rewrite H in Hsum. cbn in Hsum. lia.
  - by rewrite H.
Qed.

Lemma C3_status_by_outcome_witness :
  upload_request cfg0 (post_images "s3cret" files_mixed) (form_of files_mixed) /\
  1 <= length (form_files (form_of files_mixed) "images") <= 5 /\
  serve cfg0 env_ok (post_images "s3cret" files_mixed) world0 =
    (api_response 207 ["https://cdn.example.com/uploads/id0.PNG"]
       ["b.gif: Invalid type"; "c.jpg: Failed to open"] "1 of 3 images uploaded",
     {| puts := [{| Bucket := "bucket"; Key := "uploads/id0.PNG"; Body := zeros 10;
                    ContentType := "image/png" |}];
        drawn := 1 |}).
Proof.
  split; [repeat split |].
  split; [vm_compute; lia |].
  refine (proj1 (proj2 (C3_status_by_outcome cfg0 env_ok _ (form_of files_mixed) world0
                          _ _)) _ _).
  - repeat split.
  - vm_compute; lia.
  - discriminate.
  - discriminate.
Defined.

(** C5. For an authenticated POST /upload whose form parses: with no file
    under [images] the response is 400 "At least 1 image required", with more
    than five it is 400 "Maximum 5 images allowed"; in both cases the world
    is left as it was: no identifier drawn, no call to the bucket. *)
Theorem C5_file_count_limits cfg env r form world :
  upload_request cfg r form ->
  (length (form_files form "images") = 0 ->
     serve cfg env r world =
       (api_response 400 [] [] "At least 1 image required", world)) /\
  (5 < length (form_files form "images") ->
     serve cfg env r world =
       (api_response 400 [] [] "Maximum 5 images allowed", world)).
Proof.
  intros Hreq.
  rewrite (serve_upload_request cfg env r form world Hreq). cbv zeta.
  rewrite !sendJSONMulti_new.
  split; intros Hn.
  - by rewrite Hn.
  - destruct (Nat.eqb_spec (length (form_files form "images")) 0) as [| _]; [lia |].
    destruct (Nat.ltb_spec 5 (length (form_files form "images"))) as [_ |]; [done | lia].
Qed.

Lemma C5_file_count_limits_witness :
  upload_request cfg0 (post_images "s3cret" files_six) (form_of files_six) /\
  5 < length (form_files (form_of files_six) "images") /\
  serve cfg0 env_ok (post_images "s3cret" files_six) world0 =
    (api_response 400 [] [] "Maximum 5 images allowed", world0).
Proof.
  split; [repeat split |].
  split; [vm_compute; lia |].
  refine (proj2 (C5_file_count_limits cfg0 env_ok _ (form_of files_six) world0 _) _).
  - repeat split.
  - vm_compute; lia.
Defined.

(** C10. In the response to an accepted upload request, [urls] lists the
    URLs of the successful files and [failed] the entries of the failing
    files, each in the order in which the files stand in the [images] field:
    both are order-preserving sub-sequences of the list of per-file outcomes,
    whose i-th element is the outcome of the i-th file. *)
Theorem C10_order_preserved cfg env r form world :
  upload_request cfg r form ->
  1 <= length (form_files form "images") <= 5 ->
  exists os status urls failed message world',
    serve cfg env r world = (api_response status urls failed message, world') /\
    length os = length (form_files form "images") /\
    (forall i o, os !! i = Some o ->
       exists fileHeader,
         form_files form "images" !! i = Some fileHeader /\
         o = (file_outcome cfg env fileHeader
                (world_after cfg env (form_files form "images") i world)).1) /\
    urls = successes os /\ failed = failures os /\
    (Uploaded <$> urls) `sublist_of` os /\
    (Rejected <$> failed) `sublist_of` os.
Proof.
  intros Hreq [Hlo Hhi].
  rewrite (serve_upload_request cfg env r form world Hreq). cbv zeta.
  set (files := form_files form "images") in *.
  destruct (Nat.eqb_spec (length files) 0) as [| _]; [lia |].
  destruct (Nat.ltb_spec 5 (length files)) as [| _]; [lia |].
  pose proof (outcomes_length cfg env files world) as Hlen.
  pose proof (outcomes_lookup cfg env files world) as Hlook.
  destruct (outcomes cfg env files world) as [os world']. cbn [fst snd] in *.
  exists os.
  assert (exists status message,
    upload_response (length files) os =
    api_response status (successes os) (failures os) message) as (status & message & ->).
  { unfold upload_response. cbv zeta. rewrite !sendJSONMulti_new.
    destruct (Nat.eqb_spec (length (successes os)) 0) as [H0 |].
    - apply nil_length_inv in H0. rewrite H0. eauto.
    - destruct (Nat.ltb_spec 0 (length (failures os))) as [| Hf]; [eauto |].
      assert (failures os = []) as -> by (apply nil_length_inv; lia). eauto. }
  exists status, (successes os), (failures os), message, world'.
  repeat split; auto using successes_sublist, failures_sublist.
Qed.

Lemma C10_order_preserved_witness :
  upload_request cfg0 (post_images "s3cret" files_mixed) (form_of files_mixed) /\
  1 <= length (form_files (form_of files_mixed) "images") <= 5 /\
  exists os status urls failed message world',
    serve cfg0 env_ok (post_images "s3cret" files_mixed) world0 =
      (api_response status urls failed message, world') /\
    length os = length (form_files (form_of files_mixed) "images") /\
    (forall i o, os !! i = Some o ->
       exists fileHeader,
         form_files (form_of files_mixed) "images" !! i = Some fileHeader /\
         o = (file_outcome cfg0 env_ok fileHeader
                (world_after cfg0 env_ok (form_files (form_of files_mixed) "images")
                   i world0)).1) /\
    urls = successes os /\ failed = failures os /\
    (Uploaded <$> urls) `sublist_of` os /\
    (Rejected <$> failed) `sublist_of` os.
Proof.
  split; [repeat split |].
  split; [vm_compute; lia |].
  apply (C10_order_preserved cfg0 env_ok _ (form_of files_mixed) world0).
  - repeat split.
  - vm_compute; lia.
Defined.

(** ** Claims about the authentication gate and the health route *)

(** After a successful start the configured key is not empty. *)
Lemma startup_apiKey environ load_err cfg :
  startup environ load_err = Some cfg -> apiKey cfg <> EmptyString.
Proof.
  unfold startup. destruct (initR2 environ load_err) as [[[b p] e] |]; [| done]. cbn.
  destruct (nonempty (Getenv environ "API_KEY")) eqn:Hk; [| done].
  intros [= <-]. cbn. unfold nonempty in Hk.
  intros Heq. rewrite Heq in Hk. done.
Qed.

Lemma authMiddleware_rejects cfg (next : HandlerFunc) r world :
  Header_Get (Header_ r) "X-API-Key" <> apiKey cfg ->
  authMiddleware cfg next new_ResponseWriter r world = (unauthorized_response, world).
Proof.
  intros Hne. unfold authMiddleware. cbv zeta.
  apply String.eqb_neq in Hne. rewrite Hne. cbn [negb].
  unfold unauthorized_response, json_response, unauthorized_body, Encode, WriteHeader,
    set_header, Header_Set, new_ResponseWriter; unfold_M; cbn.
  by rewrite insert_empty.
Qed.

(** C2. A request whose [X-API-Key] header is not the configured key, the
    header being absent included, is answered 401 with the JSON body
    [{status: 401, message: "Unauthorized: ..."}] on every route, that is,
    whenever the mux hands it to one of the two registered handlers, whatever
    its method, path and body; the wrapped handler, whichever it is, plays no
    part in the answer, and the world is left as it was. *)
Theorem C2_wrong_key_is_401 environ load_err cfg env r world :
  startup environ load_err = Some cfg ->
  Header_Get (Header_ r) "X-API-Key" <> apiKey cfg \/
  Header_ r !! "X-Api-Key" = None ->
  (dispatched r -> serve cfg env r world = (unauthorized_response, world)) /\
  (forall next : HandlerFunc,
     authMiddleware cfg next new_ResponseWriter r world = (unauthorized_response, world)) /\
  rw_status unauthorized_response = Some 401%Z /\
  exists members,
    rw_body unauthorized_response = [JObj members] /\
    members !! "status" = Some (JNum 401) /\
    members !! "message" = Some (JStr "Unauthorized: Invalid or missing API key").
Proof.
  intros Hstart Hkey.
  assert (Header_Get (Header_ r) "X-API-Key" <> apiKey cfg) as Hne.
  { destruct Hkey as [Hne | Habsent]; [done |].
    unfold Header_Get.
    change (CanonicalMIMEHeaderKey "X-API-Key") with "X-Api-Key".
    rewrite Habsent. intros Heq. by apply (startup_apiKey environ load_err cfg). }
  split; [| split; [| split]].
  - intros _. unfold serve, route.
    destruct (String.eqb (Path r) "/upload"); by apply authMiddleware_rejects.
  - intros next. by apply authMiddleware_rejects.
  - reflexivity.
  - eexists. split; [reflexivity |]. split; reflexivity.
Qed.

Lemma C2_wrong_key_is_401_witness :
  startup environ0 None = Some cfg0 /\
  (Header_Get (Header_ (post_images "guess" files_good)) "X-API-Key" <> apiKey cfg0 \/
   Header_ (post_images "guess" files_good) !! "X-Api-Key" = None) /\
  dispatched (post_images "guess" files_good) /\
  serve cfg0 env_ok (post_images "guess" files_good) world0 =
    (unauthorized_response, world0).
Proof.
  split; [reflexivity |].
  split; [left; vm_compute; discriminate |].
  split; [reflexivity |].
  refine (proj1 (C2_wrong_key_is_401 environ0 None cfg0 env_ok _ world0 _ _) _).
  - reflexivity.
  - left. vm_compute. discriminate.
  - reflexivity.
Defined.

(** C9. An authenticated GET / is answered 200 with the JSON body
    [{success: true, message: "successfully connect"}]; the answer is the same
    in every world and for every bucket, and the world is left as it was. *)
Theorem C9_health_check cfg env r world :
  authenticated cfg r ->
  Method r = "GET" ->
  Path r = "/" ->
  serve cfg env r world = (health_response, world) /\
  rw_status health_response = Some 200%Z /\
  exists members,
    rw_body health_response = [JObj members] /\
    members !! "success" = Some (JBool true) /\
    members !! "message" = Some (JStr "successfully connect").
Proof.
  intros Hauth _ Hpath.
  split; [| split; [reflexivity |]].
  - rewrite serve_authenticated by done. rewrite Hpath.
    cbn [String.eqb Ascii.eqb Bool.eqb].
    unfold healthHandler, health_response, json_response, Encode, WriteHeader,
      set_header, Header_Set, new_ResponseWriter; unfold_M; cbn.
    by rewrite insert_empty.
  - eexists. split; [reflexivity |]. split; reflexivity.
Qed.

Lemma C9_health_check_witness :
  authenticated cfg0 (get_root (<["X-Api-Key" := ["s3cret"]]> ∅)) /\
  serve cfg0 env_flaky (get_root (<["X-Api-Key" := ["s3cret"]]> ∅)) world0 =
    (health_response, world0).
Proof.
  split; [reflexivity |].
  refine (proj1 (C9_health_check cfg0 env_flaky _ world0 _ _ _)); reflexivity.
Defined.

(** C4 (evaluation). [ParseMultipartForm(50 << 20)] bounds the memory used
    for the form, not its size: a form with one PNG of 60 MiB parses, and
    the file is uploaded. *)
Theorem C4_oversized_form_is_uploaded :
  (file_bytes (form_of files_big) > Z.shiftl 50 20)%Z /\
  ParseMultipartForm (post_images "s3cret" files_big) (Z.shiftl 50 20) =
    Some (form_of files_big) /\
  serve cfg0 env_ok (post_images "s3cret" files_big) world0 =
    (api_response 200 ["https://cdn.example.com/uploads/id0.png"] []
       "1 image(s) uploaded successfully",
     {| puts := [{| Bucket := "bucket"; Key := "uploads/id0.png";
                    Body := zeros (Z.shiftl 60 20); ContentType := "image/png" |}];
        drawn := 1 |}).
Proof.
  split; [vm_compute; reflexivity |].
  split; [reflexivity |].
  rewrite (serve_upload_request cfg0 env_ok _ (form_of files_big) world0)
    by repeat split.
  vm_compute. reflexivity.
Qed.

(** ** Extensions *)

Section ExtFacts.

Lemma str_length_app (s t : string) :
  String.length (s +:+ t) = String.length s + String.length t.
Proof. induction s as [| c s IH]; simpl; [done | by f_equal]. Qed.

Lemma str_app_assoc (s t u : string) : s +:+ t +:+ u = (s +:+ t) +:+ u.
Proof.
  induction s as [| c s IH]; [reflexivity |].
  change (String c (s +:+ t +:+ u) = String c ((s +:+ t) +:+ u)). by rewrite IH.
Qed.

Lemma str_from_app (p s : string) : str_from (String.length p) (p +:+ s) = s.
Proof. induction p as [| c p IH]; cbn; [by destruct s | done]. Qed.

Lemma get_app_r (p s : string) (j : nat) :
  String.get (String.length p + j) (p +:+ s) = String.get j s.
Proof. induction p as [| c p IH]; cbn; done. Qed.

Lemma plain_get (t : string) : forall j, plain t = true -> j < String.length t ->
  exists c, String.get j t = Some c /\
            IsPathSeparator c = false /\ Ascii.eqb c "." = false.
Proof.
  induction t as [| c t IH]; intros j Hp Hj; cbn in *; [lia |].
  apply andb_prop in Hp as [Hp Ht]. apply andb_prop in Hp as [Hs Hd].
  apply negb_true_iff in Hs, Hd.
  destruct j as [| j]; [by exists c |].
  apply IH; [done | lia].
Qed.

(** The loop runs down through plain bytes. *)
Lemma Ext_loop_skip (path : string) (i : nat) : forall k,
  (forall j, i <= j < i + k ->
     exists c, String.get j path = Some c /\
               IsPathSeparator c = false /\ Ascii.eqb c "." = false) ->
  Ext_loop path (i + k) = Ext_loop path i.
Proof.
  induction k as [| k IH]; intros Hplain.
  - by rewrite Nat.add_0_r.
  - replace (i + S k) with (S (i + k)) by lia. cbn [Ext_loop].
    destruct (Hplain (i + k)) as (c & -> & -> & ->); [lia |].
    apply IH. intros j Hj. apply Hplain. lia.
Qed.

(** A dot followed by plain bytes at the end of a path is its extension. *)
Lemma Ext_dot_suffix (p t : string) :
  plain t = true -> Ext (p +:+ String "." t) = String "." t.
Proof.
  intros Hp. unfold Ext. rewrite str_length_app. cbn [String.length].
  replace (String.length p + S (String.length t))
    with (S (String.length p) + String.length t) by lia.
  rewrite Ext_loop_skip.
  - cbn [Ext_loop].
    pose proof (get_app_r p (String "." t) 0) as Hg.
    rewrite Nat.add_0_r in Hg. rewrite Hg. cbn.
    apply str_from_app.
  - intros j Hj.
    replace j with (String.length p + S (j - S (String.length p))) by lia.
    rewrite get_app_r. cbn [String.get].
    apply plain_get; [done | lia].
Qed.

Lemma lower_byte_sep c : IsPathSeparator (lower_byte c) = IsPathSeparator c.
Proof. by destruct c as [[] [] [] [] [] [] [] []]. Qed.

Lemma lower_byte_dot c : Ascii.eqb (lower_byte c) "." = Ascii.eqb c ".".
Proof. by destruct c as [[] [] [] [] [] [] [] []]. Qed.

Lemma plain_ToLower s : plain (ToLower s) = plain s.
Proof.
  induction s as [| c s IH]; cbn; [done |].
  by rewrite lower_byte_sep, lower_byte_dot, IH.
Qed.

(** A string that lowers to a dot followed by plain bytes is itself one. *)
Lemma ToLower_dot_plain e t :
  ToLower e = String "." t -> plain t = true ->
  exists t', e = String "." t' /\ plain t' = true.
Proof.
  destruct e as [| c e]; cbn; [done |].
  intros [= Hc Ht] Hp. exists e. split.
  - f_equal. apply Ascii.eqb_eq. rewrite <- lower_byte_dot, Hc. done.
  - by rewrite <- plain_ToLower, Ht.
Qed.

Lemma ext_allowed_shape (name : string) :
  ext_allowed name -> exists t, Ext name = String "." t /\ plain t = true.
Proof.
  unfold ext_allowed. rewrite !elem_of_cons, elem_of_nil.
  intros [H | [H | [H | [H | []]]]];
    eapply ToLower_dot_plain; try exact H; reflexivity.
Qed.

(** The storage key of an accepted file has the extension of the
    original name. *)
Lemma Ext_key (name p : string) :
  ext_allowed name -> Ext (p +:+ Ext name) = Ext name.
Proof.
  intros (t & -> & Hp)%ext_allowed_shape. by apply Ext_dot_suffix.
Qed.

Lemma isAllowedImage_spec fileHeader :
  isAllowedImage fileHeader = true <-> ext_allowed (Filename fileHeader).
Proof.
  unfold isAllowedImage, ext_allowed, allowed. cbv zeta.
  generalize (ToLower (Ext (Filename fileHeader))); intros e.
  rewrite !elem_of_cons, elem_of_nil.
  rewrite !lookup_insert, lookup_empty.
  repeat case_decide; subst; cbn; intuition congruence.
Qed.

Lemma detectContentType_spec (filename : string) :
  detectContentType filename = content_type_of_ext (ToLower (Ext filename)).
Proof.
  unfold detectContentType, content_type_of_ext. cbv zeta.
  generalize (ToLower (Ext filename)); intros e.
  destruct (String.eqb_spec e ".jpg") as [-> | Hjpg]; [done |].
  destruct (String.eqb_spec e ".jpeg") as [-> | Hjpeg]; [done |].
  cbn [orb]. rewrite decide_False by (intros [|]; congruence).
  destruct (String.eqb_spec e ".png") as [-> | Hpng]; [done |].
  rewrite decide_False by done.
  destruct (String.eqb_spec e ".webp") as [-> | Hwebp]; [done |].
  by rewrite decide_False.
Qed.

End ExtFacts.

(** ** One iteration of the loop, case by case *)

Section IterationFacts.

Variable cfg : Config.
Variable env : Env.

Lemma file_outcome_invalid fileHeader world :
  isAllowedImage fileHeader = false ->
  file_outcome cfg env fileHeader world =
  (Rejected (Filename fileHeader +:+ ": Invalid type"), world).
Proof. intros H. unfold file_outcome. by rewrite H. Qed.

Lemma file_outcome_unopened fileHeader world :
  isAllowedImage fileHeader = true ->
  Open fileHeader = None ->
  file_outcome cfg env fileHeader world =
  (Rejected (Filename fileHeader +:+ ": Failed to open"), world).
Proof. intros H1 H2. unfold file_outcome. by rewrite H1, H2. Qed.

Lemma file_outcome_sent fileHeader file world :
  isAllowedImage fileHeader = true ->
  Open fileHeader = Some file ->
  file_outcome cfg env fileHeader world =
  (match PutObject_err env (puts world) (put_input cfg env fileHeader file world) with
   | Some _ => Rejected (Filename fileHeader +:+ ": Upload failed")
   | None =>
       Uploaded (publicURL cfg +:+ "/uploads/" +:+ uuid_String env (drawn world)
                 +:+ Ext (Filename fileHeader))
   end,
   {| puts := (puts world ++ [put_input cfg env fileHeader file world])%list;
      drawn := S (drawn world) |}).
Proof.
  intros H1 H2. unfold file_outcome. rewrite H1, H2. cbn [negb].
  unfold generateFileName, uploadToR2, PutObject, put_input; unfold_M; cbn.
  case_put; reflexivity.
Qed.

Lemma app_singleton_ne {A} (l : list A) (x : A) : (l ++ [x])%list <> l.
Proof.
  intros H. apply (f_equal length) in H. rewrite length_app in H. cbn in H. lia.
Qed.

End IterationFacts.

(** ** Claims about single files *)

(** C6 (as stated) fails: a file named c.jpg whose stream cannot be opened
    has an allowed extension and is not sent to the bucket. *)
Lemma C6_unopened_file_counterexample :
  ~ (sent_to_backend cfg0 env_ok (fh_unopenable "c.jpg" 4) world0 <->
     ext_allowed (Filename (fh_unopenable "c.jpg" 4))).
Proof.
  intros [_ Hsent].
  apply Hsent; [| reflexivity].
  unfold ext_allowed. cbn. apply list_elem_of_here.
Qed.

(** C6 (amended). A file of an accepted request is sent to the bucket if
    and only if its extension, lower-cased, is one of .jpg, .jpeg, .png,
    .webp and its stream opens; a file with another extension gives exactly
    the failure entry "<filename>: Invalid type" and leaves the world as it
    was; a file with an allowed extension whose stream does not open gives
    exactly the failure entry "<filename>: Failed to open" and leaves the
    world as it was. *)
Theorem C6_backend_iff_allowed_and_opened cfg env fileHeader world :
  (sent_to_backend cfg env fileHeader world <->
   ext_allowed (Filename fileHeader) /\ is_Some (Open fileHeader)) /\
  (~ ext_allowed (Filename fileHeader) ->
   file_outcome cfg env fileHeader world =
     (Rejected (Filename fileHeader +:+ ": Invalid type"), world) /\
   forall acc,
     upload_step cfg env fileHeader acc world =
       ((acc.1, (acc.2 ++ [Filename fileHeader +:+ ": Invalid type"])%list), world)) /\
  (ext_allowed (Filename fileHeader) -> Open fileHeader = None ->
   ~ sent_to_backend cfg env fileHeader world /\
   file_outcome cfg env fileHeader world =
     (Rejected (Filename fileHeader +:+ ": Failed to open"), world) /\
   forall acc,
     upload_step cfg env fileHeader acc world =
       ((acc.1, (acc.2 ++ [Filename fileHeader +:+ ": Failed to open"])%list), world)).
Proof.
  unfold sent_to_backend. rewrite <- isAllowedImage_spec.
  destruct (isAllowedImage fileHeader) eqn:Hallowed.
  - split; [| split; [intros Hne; by destruct Hne |]].
    + destruct (Open fileHeader) as [file |] eqn:Hopen.
      * rewrite (file_outcome_sent cfg env fileHeader file world) by done. cbn [snd puts].
        split; [eauto | intros _; apply app_singleton_ne].
      * rewrite file_outcome_unopened by done. cbn [snd].
        split; [done | intros [_ [? [=]]]].
    + intros _ Hopen.
      rewrite file_outcome_unopened by done. cbn [snd].
      split; [by intros Hne |]. split; [done |]. intros acc.
      rewrite upload_step_outcome, file_outcome_unopened by done. reflexivity.
  - rewrite file_outcome_invalid by done. cbn [snd].
    split; [split; [done | intros [[=] _]] |].
    split; [| intros [=]].
    intros _. split; [done |]. intros acc.
    rewrite upload_step_outcome, file_outcome_invalid by done. reflexivity.
Qed.

Lemma C6_backend_iff_allowed_and_opened_witness :
  (~ ext_allowed (Filename (fh "b.gif" 3)) /\
   file_outcome cfg0 env_ok (fh "b.gif" 3) world0 =
     (Rejected "b.gif: Invalid type", world0)) /\
  (ext_allowed (Filename (fh_unopenable "c.jpg" 4)) /\
   Open (fh_unopenable "c.jpg" 4) = None /\
   file_outcome cfg0 env_ok (fh_unopenable "c.jpg" 4) world0 =
     (Rejected "c.jpg: Failed to open", world0)).
Proof.
  assert (~ ext_allowed (Filename (fh "b.gif" 3))) as Hgif.
  { unfold ext_allowed. cbn. rewrite !elem_of_cons, elem_of_nil.
    intros [H | [H | [H | [H | []]]]]; discriminate. }
  assert (ext_allowed (Filename (fh_unopenable "c.jpg" 4))) as Hjpg.
  { unfold ext_allowed. cbn. apply list_elem_of_here. }
  split.
  - split; [exact Hgif |].
    exact (proj1 (proj1 (proj2 (C6_backend_iff_allowed_and_opened cfg0 env_ok
                                  (fh "b.gif" 3) world0)) Hgif)).
  - split; [exact Hjpg |]. split; [reflexivity |].
    exact (proj1 (proj2 (proj2 (proj2 (C6_backend_iff_allowed_and_opened cfg0 env_ok
                                  (fh_unopenable "c.jpg" 4) world0)) Hjpg eq_refl))).
Defined.




(** In the loop the key carries the extension of the original name, so the
    content type of an accepted file is the image type of that extension. *)
Lemma uploaded_content_type cfg env fileHeader file world :
  ext_allowed (Filename fileHeader) ->
  ContentType (put_input cfg env fileHeader file world) =
    content_type_of_ext (ToLower (Ext (Filename fileHeader))) /\
  ContentType (put_input cfg env fileHeader file world)
    ∈ ["image/jpeg"; "image/png"; "image/webp"].
Proof.
  intros Hallowed. unfold put_input. cbn [ContentType].
  rewrite detectContentType_spec.
  rewrite str_app_assoc, Ext_key by done.
  split; [done |].
  unfold ext_allowed in Hallowed. revert Hallowed.
  rewrite !elem_of_cons, elem_of_nil.
  intros [-> | [-> | [-> | [-> | []]]]]; cbn; set_solver.
Qed.

(** ** The world after the loop *)

Import MoreSamples.

Section CallFacts.

Variable cfg : Config.
Variable env : Env.

Lemma put_input_call_at fileHeader file world :
  put_input cfg env fileHeader file world = call_at cfg env fileHeader file (drawn world).
Proof. reflexivity. Qed.

Lemma world_with_nil world : world_with world [] = world.
Proof. destruct world. unfold world_with; cbn. by rewrite app_nil_r, Nat.add_0_r. Qed.

Lemma world_with_app world l1 l2 :
  world_with (world_with world l1) l2 = world_with world (l1 ++ l2).
Proof.
  unfold world_with; cbn. rewrite length_app, <- app_assoc. f_equal. lia.
Qed.

(** The world after the loop does not depend on what the bucket answered:
    it is the world before it with the calls of [loop_calls] made. *)
Lemma outcomes_world files : forall world,
  (outcomes cfg env files world).2 =
  world_with world (loop_calls cfg env files (drawn world)).
Proof.
  induction files as [| fileHeader rest IH]; intros world.
  - cbn. by rewrite world_with_nil.
  - cbn [outcomes loop_calls]. unfold_M.
    destruct (isAllowedImage fileHeader) eqn:Hallowed.
    + destruct (Open fileHeader) as [file |] eqn:Hopen.
      * rewrite (file_outcome_sent cfg env fileHeader file world) by done.
        rewrite put_input_call_at.
        match goal with |- context [outcomes cfg env rest ?w] =>
          specialize (IH w); destruct (outcomes cfg env rest w) as [os w2] end.
        cbn [snd] in *. rewrite IH. cbn [drawn].
        unfold world_with; cbn. rewrite <- app_assoc. cbn. f_equal. lia.
      * rewrite file_outcome_unopened by done.
        specialize (IH world). destruct (outcomes cfg env rest world) as [os w2].
        done.
    + rewrite file_outcome_invalid by done.
      specialize (IH world). destruct (outcomes cfg env rest world) as [os w2].
      done.
Qed.

Lemma loop_calls_length files : forall d,
  length (loop_calls cfg env files d) <= length files.
Proof.
  induction files as [| fileHeader rest IH]; intros d; cbn; [lia |].
  pose proof (IH d). pose proof (IH (S d)).
  destruct (isAllowedImage fileHeader); [destruct (Open fileHeader) |]; cbn; lia.
Qed.

(** Every call of the loop: the key of an identifier drawn during the
    loop, for a file of the request with an allowed extension. *)
Lemma loop_calls_elem files : forall d input,
  input ∈ loop_calls cfg env files d ->
  exists fileHeader file i,
    fileHeader ∈ files /\ Open fileHeader = Some file /\
    ext_allowed (Filename fileHeader) /\
    d <= i < d + length (loop_calls cfg env files d) /\
    input = call_at cfg env fileHeader file i.
Proof.
  induction files as [| fileHeader rest IH]; intros d input; cbn [loop_calls].
  - by intros ?%elem_of_nil.
  - destruct (isAllowedImage fileHeader) eqn:Hallowed.
    + destruct (Open fileHeader) as [file |] eqn:Hopen.
      * intros [-> | Hin]%elem_of_cons.
        -- exists fileHeader, file, d. cbn [length].
           repeat split; [left | done | by apply isAllowedImage_spec | lia | lia].
        -- destruct (IH (S d) input Hin) as (fh & f & i & ? & ? & ? & ? & ?).
           exists fh, f, i. cbn [length].
           repeat split; [by right | done | done | lia | lia | done].
      * intros Hin. destruct (IH d input Hin) as (fh & f & i & ? & ? & ? & ? & ?).
        exists fh, f, i. repeat split; [by right | done | done | lia | lia | done].
    + intros Hin. destruct (IH d input Hin) as (fh & f & i & ? & ? & ? & ? & ?).
      exists fh, f, i. repeat split; [by right | done | done | lia | lia | done].
Qed.

End CallFacts.

(** ** Every path through a request *)

Section RequestFacts.

Variable cfg : Config.
Variable env : Env.

Lemma serve_other_path r world :
  authenticated cfg r -> Path r <> "/upload" ->
  serve cfg env r world = (health_response, world).
Proof.
  intros Hauth Hpath. rewrite serve_authenticated by done.
  apply String.eqb_neq in Hpath. rewrite Hpath.
  unfold healthHandler, health_response, json_response, Encode, WriteHeader,
    set_header, Header_Set, new_ResponseWriter; unfold_M; cbn.
  by rewrite insert_empty.
Qed.

Lemma serve_wrong_method r world :
  authenticated cfg r -> Path r = "/upload" -> Method r <> "POST" ->
  serve cfg env r world = (api_response 405 [] [] "Method not allowed", world).
Proof.
  intros Hauth Hpath Hmeth. rewrite serve_authenticated by done.
  rewrite Hpath. cbn [String.eqb Ascii.eqb Bool.eqb].
  unfold uploadHandler. apply String.eqb_neq in Hmeth.
  unfold MethodPost. rewrite Hmeth. cbn [negb]. unfold_M.
  by rewrite sendJSONMulti_new.
Qed.

Lemma serve_bad_form r world :
  authenticated cfg r -> Path r = "/upload" -> Method r = "POST" ->
  ParseMultipartForm r (Z.shiftl 50 20) = None ->
  serve cfg env r world = (api_response 400 [] [] "Invalid multipart form", world).
Proof.
  intros Hauth Hpath Hmeth Hparse. rewrite serve_authenticated by done.
  rewrite Hpath. cbn [String.eqb Ascii.eqb Bool.eqb].
  unfold uploadHandler, MethodPost. rewrite Hmeth, Hparse.
  cbn [String.eqb Ascii.eqb Bool.eqb negb]. unfold_M.
  by rewrite sendJSONMulti_new.
Qed.

(** A request the mux does not hand to a handler leaves the world as it
    is, here as in the program. *)
Lemma serve_not_dispatched r world :
  ~ dispatched r -> (serve cfg env r world).2 = world.
Proof.
  intros Hnot.
  assert (Path r <> "/upload") as Hpath.
  { intros Heq. apply Hnot. unfold dispatched. by rewrite Heq. }
  destruct (decide (Header_Get (Header_ r) "X-API-Key" = apiKey cfg)) as [Hauth | Hne].
  - by rewrite serve_other_path.
  - unfold serve, route. apply String.eqb_neq in Hpath. rewrite Hpath.
    by rewrite authMiddleware_rejects.
Qed.

(** The five ways a request can go. *)
Lemma serve_cases r world :
  (Header_Get (Header_ r) "X-API-Key" <> apiKey cfg /\
   serve cfg env r world = (unauthorized_response, world)) \/
  (authenticated cfg r /\ Path r <> "/upload" /\
   serve cfg env r world = (health_response, world)) \/
  (authenticated cfg r /\ Path r = "/upload" /\ Method r <> "POST" /\
   serve cfg env r world = (api_response 405 [] [] "Method not allowed", world)) \/
  (authenticated cfg r /\ Path r = "/upload" /\ Method r = "POST" /\
   ParseMultipartForm r (Z.shiftl 50 20) = None /\
   serve cfg env r world = (api_response 400 [] [] "Invalid multipart form", world)) \/
  (exists form, upload_request cfg r form).
Proof.
  destruct (decide (Header_Get (Header_ r) "X-API-Key" = apiKey cfg)) as [Hauth | Hne].
  - right.
    destruct (decide (Path r = "/upload")) as [Hpath | Hpath].
    + right.
      destruct (decide (Method r = "POST")) as [Hmeth | Hmeth].
      * right.
        destruct (ParseMultipartForm r (Z.shiftl 50 20)) as [form |] eqn:Hparse.
        -- right. by exists form.
        -- left. repeat split; try done. by apply serve_bad_form.
      * left. repeat split; try done. by apply serve_wrong_method.
    + left. repeat split; try done. by apply serve_other_path.
  - left. split; [done |].
    unfold serve, route.
    destruct (String.eqb (Path r) "/upload"); by apply authMiddleware_rejects.
Qed.

(** The response and the world of an upload request, whatever the count. *)
Lemma serve_upload_cases r form world :
  upload_request cfg r form ->
  (length (form_files form "images") = 0 /\
   serve cfg env r world =
     (api_response 400 [] [] "At least 1 image required", world)) \/
  (5 < length (form_files form "images") /\
   serve cfg env r world =
     (api_response 400 [] [] "Maximum 5 images allowed", world)) \/
  (1 <= length (form_files form "images") <= 5 /\
   serve cfg env r world =
     (upload_response (length (form_files form "images"))
        (outcomes cfg env (form_files form "images") world).1,
      world_with world (loop_calls cfg env (form_files form "images") (drawn world)))).
Proof.
  intros Hreq.
  rewrite (serve_upload_request cfg env r form world Hreq). cbv zeta.
  rewrite !sendJSONMulti_new.
  destruct (Nat.eqb_spec (length (form_files form "images")) 0) as [H0 | H0];
    [by left |].
  destruct (Nat.ltb_spec 5 (length (form_files form "images"))) as [H5 | H5];
    [right; by left |].
  right; right. split; [lia |].
  rewrite <- outcomes_world.
  by destruct (outcomes cfg env (form_files form "images") world).
Qed.

End RequestFacts.

(** The members of an encoded [ApiResponse]. *)
Lemma marshal_ApiResponse_members status urls failed message :
  exists members,
    marshal {| Status := status; URLs := urls; Message := message; Failed := failed |}
      = JObj members /\
    members !! "status" = Some (JNum status) /\
    members !! "message" = Some (JStr message) /\
    members !! "urls" = Some (marshal_strings urls) /\
    members !! "failed" =
      match failed with [] => None | _ => Some (JArr (JStr <$> failed)) end.
Proof.
  unfold marshal, marshal_ApiResponse. cbn [Status URLs Message Failed].
  destruct failed as [| e failed]; eexists; (split; [reflexivity |]);
    repeat split; by simplify_map_eq.
Qed.

Lemma upload_response_shape n os :
  exists status message,
    upload_response n os = api_response status (successes os) (failures os) message /\
    status ∈ written_statuses.
Proof.
  unfold upload_response. cbv zeta. rewrite !sendJSONMulti_new.
  destruct (Nat.eqb_spec (length (successes os)) 0) as [H0 |].
  - apply nil_length_inv in H0. rewrite H0.
    eexists _, _. split; [reflexivity |]. unfold written_statuses. set_solver.
  - destruct (Nat.ltb_spec 0 (length (failures os))) as [| Hf].
    + eexists _, _. split; [reflexivity |]. unfold written_statuses. set_solver.
    + assert (failures os = []) as -> by (apply nil_length_inv; lia).
      eexists _, _. split; [reflexivity |]. unfold written_statuses. set_solver.
Qed.

(** ** Further properties: the early answers *)

(** X1. An authenticated request to /upload whose method is not POST is
    answered 405 "Method not allowed" with no URL and no failure entry,
    whatever its body; nothing is sent to the bucket and no identifier is
    drawn.  The method is compared as sent: "post" is not POST. *)
Theorem X1_other_method_is_405 cfg env r world :
  authenticated cfg r ->
  Path r = "/upload" ->
  Method r <> "POST" ->
  serve cfg env r world = (api_response 405 [] [] "Method not allowed", world).
Proof. apply serve_wrong_method. Qed.

Lemma X1_other_method_is_405_witness :
  authenticated cfg0 (put_images "s3cret" files_good) /\
  Path (put_images "s3cret" files_good) = "/upload" /\
  Method (put_images "s3cret" files_good) <> "POST" /\
  serve cfg0 env_ok (put_images "s3cret" files_good) world0 =
    (api_response 405 [] [] "Method not allowed", world0).
Proof.
  split; [reflexivity |]. split; [reflexivity |]. split; [discriminate |].
  apply (X1_other_method_is_405 cfg0 env_ok _ world0); [reflexivity | reflexivity | discriminate].
Defined.

(** X2. An authenticated POST to /upload whose body is not a multipart
    form is answered 400 "Invalid multipart form" with no URL and no failure
    entry; nothing is sent to the bucket and no identifier is drawn. *)
Theorem X2_not_multipart_is_400 cfg env r world :
  authenticated cfg r ->
  Path r = "/upload" ->
  Method r = "POST" ->
  Body_ r = NotMultipart ->
  serve cfg env r world = (api_response 400 [] [] "Invalid multipart form", world).
Proof.
  intros Hauth Hpath Hmeth Hbody. apply serve_bad_form; try done.
  unfold ParseMultipartForm. by rewrite Hbody.
Qed.

Lemma X2_not_multipart_is_400_witness :
  authenticated cfg0 (post_text "s3cret") /\
  Path (post_text "s3cret") = "/upload" /\
  Method (post_text "s3cret") = "POST" /\
  Body_ (post_text "s3cret") = NotMultipart /\
  serve cfg0 env_ok (post_text "s3cret") world0 =
    (api_response 400 [] [] "Invalid multipart form", world0).
Proof.
  repeat (split; [reflexivity |]).
  apply (X2_not_multipart_is_400 cfg0 env_ok _ world0); reflexivity.
Defined.

(** X3. An authenticated request that the mux hands to a handler, to any
    path other than /upload, is answered by the health handler, 200 with its
    fixed document, whatever the method and the body: the pattern "/"
    catches every other path, and the health handler does not look at the
    method. *)
Theorem X3_other_paths_get_health cfg env r world :
  dispatched r ->
  authenticated cfg r ->
  Path r <> "/upload" ->
  serve cfg env r world = (health_response, world).
Proof. intros _. apply serve_other_path. Qed.

Lemma X3_other_paths_get_health_witness :
  dispatched (post_elsewhere "s3cret" files_good) /\
  authenticated cfg0 (post_elsewhere "s3cret" files_good) /\
  Path (post_elsewhere "s3cret" files_good) <> "/upload" /\
  serve cfg0 env_ok (post_elsewhere "s3cret" files_good) world0 =
    (health_response, world0).
Proof.
  split; [reflexivity |]. split; [reflexivity |]. split; [discriminate |].
  apply (X3_other_paths_get_health cfg0 env_ok _ world0);
    [reflexivity | reflexivity | discriminate].
Defined.

(** X4. For every request that the mux hands to a handler, the handler
    sets the JSON content type and writes one JSON document and one of the
    statuses 200, 207, 400, 401, 405; apart from the health document, the
    document carries the HTTP status again in its member "status". *)
Theorem X4_status_and_document cfg env r world :
  dispatched r ->
  exists status doc,
    (serve cfg env r world).1 = json_response status doc /\
    status ∈ written_statuses /\
    ((serve cfg env r world).1 = health_response \/
     exists members, doc = JObj members /\ members !! "status" = Some (JNum status)).
Proof.
  intros _.
  destruct (serve_cases cfg env r world)
    as [[_ ->] | [(_ & _ & ->) | [(_ & _ & _ & ->) | [(_ & _ & _ & _ & ->) | [form Hreq]]]]].
  - eexists _, _. split; [reflexivity |].
    split; [unfold written_statuses; set_solver |].
    right. eexists. split; [reflexivity |]. reflexivity.
  - eexists _, _. split; [reflexivity |].
    split; [unfold written_statuses; set_solver |]. by left.
  - destruct (marshal_ApiResponse_members 405 [] [] "Method not allowed")
      as (m & Hm & Hs & _).
    eexists _, _. split; [reflexivity |].
    split; [unfold written_statuses; set_solver |]. right. eauto.
  - destruct (marshal_ApiResponse_members 400 [] [] "Invalid multipart form")
      as (m & Hm & Hs & _).
    eexists _, _. split; [reflexivity |].
    split; [unfold written_statuses; set_solver |]. right. eauto.
  - destruct (serve_upload_cases cfg env r form world Hreq)
      as [[_ ->] | [[_ ->] | [_ ->]]].
    + destruct (marshal_ApiResponse_members 400 [] [] "At least 1 image required")
        as (m & Hm & Hs & _).
      eexists _, _. split; [reflexivity |].
      split; [unfold written_statuses; set_solver |]. right. eauto.
    + destruct (marshal_ApiResponse_members 400 [] [] "Maximum 5 images allowed")
        as (m & Hm & Hs & _).
      eexists _, _. split; [reflexivity |].
      split; [unfold written_statuses; set_solver |]. right. eauto.
    + cbn [fst].
      destruct (upload_response_shape (length (form_files form "images"))
                  (outcomes cfg env (form_files form "images") world).1)
        as (status & message & -> & Hin).
      destruct (marshal_ApiResponse_members status
                  (successes (outcomes cfg env (form_files form "images") world).1)
                  (failures (outcomes cfg env (form_files form "images") world).1) message)
        as (m & Hm & Hs & _).
      eexists _, _. split; [reflexivity |]. split; [done |]. right. eauto.
Qed.

Lemma X4_status_and_document_witness :
  dispatched (post_images "s3cret" files_mixed) /\
  exists status doc,
    (serve cfg0 env_ok (post_images "s3cret" files_mixed) world0).1 =
      json_response status doc /\
    status ∈ written_statuses /\
    ((serve cfg0 env_ok (post_images "s3cret" files_mixed) world0).1 = health_response \/
     exists members, doc = JObj members /\ members !! "status" = Some (JNum status)).
Proof.
  split; [reflexivity |].
  apply (X4_status_and_document cfg0 env_ok _ world0). reflexivity.
Defined.

(** X5. For a request that the mux hands to a handler, the status is 401
    exactly when the [X-API-Key] header is not the configured key: no
    handler behind the gate ever answers 401, and the gate lets no other
    request through. *)
Theorem X5_401_iff_wrong_key cfg env r world :
  dispatched r ->
  (rw_status (serve cfg env r world).1 = Some 401%Z <->
   Header_Get (Header_ r) "X-API-Key" <> apiKey cfg).
Proof.
  intros _.
  destruct (serve_cases cfg env r world)
    as [[Hne ->] | [(Hauth & _ & ->) | [(Hauth & _ & _ & ->) |
        [(Hauth & _ & _ & _ & ->) | [form Hreq]]]]].
  - split; [done | reflexivity].
  - split; [discriminate | done].
  - split; [discriminate | done].
  - split; [discriminate | done].
  - assert (Header_Get (Header_ r) "X-API-Key" = apiKey cfg) as Hauth by apply Hreq.
    split; [| done].
    destruct (serve_upload_cases cfg env r form world Hreq)
      as [[_ ->] | [[_ ->] | [_ ->]]]; try discriminate.
    cbn [fst]. unfold upload_response. cbv zeta. rewrite !sendJSONMulti_new.
    repeat case_match; discriminate.
Qed.

Lemma X5_401_iff_wrong_key_witness :
  dispatched (get_root ∅) /\
  (rw_status (serve cfg0 env_ok (get_root ∅) world0).1 = Some 401%Z <->
   Header_Get (Header_ (get_root ∅)) "X-API-Key" <> apiKey cfg0).
Proof.
  split; [reflexivity |].
  apply (X5_401_iff_wrong_key cfg0 env_ok _ world0). reflexivity.
Defined.

(** ** Further properties: startup *)

Lemma nonempty_spec s : nonempty s = true <-> s <> EmptyString.
Proof.
  unfold nonempty. destruct (String.eqb_spec s EmptyString); cbn; split; congruence.
Qed.

(** X6. [main] gets past its three [log.Fatal] checks, as far as
    registering the routes, exactly when the six variables R2_BUCKET_NAME,
    R2_PUBLIC_URL, R2_ACCESS_KEY, R2_SECRET_KEY, R2_ACCOUNT_ID and API_KEY
    are all set to a non-empty value (a variable set to the empty string
    counts as missing) and [config.LoadDefaultConfig] returns no error; the
    configuration then holds the bucket name, the public URL and the key as
    given, and the endpoint https://<account>.r2.cloudflarestorage.com. *)
Theorem X6_startup_iff_all_set environ load_err cfg :
  startup environ load_err = Some cfg <->
  Forall (fun k => Getenv environ k <> EmptyString) required_variables /\
  load_err = None /\
  cfg = {| bucketName := Getenv environ "R2_BUCKET_NAME";
           publicURL := Getenv environ "R2_PUBLIC_URL";
           apiKey := Getenv environ "API_KEY";
           endpoint := "https://" +:+ Getenv environ "R2_ACCOUNT_ID"
                       +:+ ".r2.cloudflarestorage.com" |}.
Proof.
  unfold required_variables. rewrite !Forall_cons, Forall_nil.
  rewrite <- !nonempty_spec.
  unfold startup, initR2. cbv zeta.
  destruct (nonempty (Getenv environ "R2_BUCKET_NAME")); cbn;
    [| split; [done | intros [(? & _) _]; done]].
  destruct (nonempty (Getenv environ "R2_PUBLIC_URL")); cbn;
    [| split; [done | intros [(_ & ? & _) _]; done]].
  destruct (nonempty (Getenv environ "R2_ACCESS_KEY")); cbn;
    [| split; [done | intros [(_ & _ & ? & _) _]; done]].
  destruct (nonempty (Getenv environ "R2_SECRET_KEY")); cbn;
    [| split; [done | intros [(_ & _ & _ & ? & _) _]; done]].
  destruct (nonempty (Getenv environ "R2_ACCOUNT_ID")); cbn;
    [| split; [done | intros [(_ & _ & _ & _ & ? & _) _]; done]].
  destruct load_err as [e |]; cbn;
    [split; [done | intros (_ & ? & _); done] |].
  destruct (nonempty (Getenv environ "API_KEY")); cbn;
    [| split; [done | intros [(_ & _ & _ & _ & _ & ? & _) _]; done]].
  split.
  - intros [= <-]. done.
  - intros (_ & _ & ->). done.
Qed.

(** ** Further properties: one file *)

(** X7. A failure entry tells its cause.  When an iteration records a
    failure, then either the extension is not allowed, the entry ends in
    ": Invalid type" and the world is untouched; or the extension is allowed,
    the stream did not open, the entry ends in ": Failed to open" and the
    world is untouched; or the file was sent, the bucket answered with an
    error, the entry ends in ": Upload failed", and the call and the
    identifier drawn for it stay consumed. *)
Theorem X7_failure_entry_tells_cause cfg env fileHeader world entry world' :
  file_outcome cfg env fileHeader world = (Rejected entry, world') ->
  (~ ext_allowed (Filename fileHeader) /\
   entry = Filename fileHeader +:+ ": Invalid type" /\ world' = world) \/
  (ext_allowed (Filename fileHeader) /\ Open fileHeader = None /\
   entry = Filename fileHeader +:+ ": Failed to open" /\ world' = world) \/
  (ext_allowed (Filename fileHeader) /\
   exists file,
     Open fileHeader = Some file /\
     PutObject_err env (puts world) (call_at cfg env fileHeader file (drawn world)) <> None /\
     entry = Filename fileHeader +:+ ": Upload failed" /\
     world' = world_with world [call_at cfg env fileHeader file (drawn world)]).
Proof.
  destruct (isAllowedImage fileHeader) eqn:Hallowed.
  - assert (ext_allowed (Filename fileHeader)) as Hext by by apply isAllowedImage_spec.
    destruct (Open fileHeader) as [file |] eqn:Hopen.
    + rewrite (file_outcome_sent cfg env fileHeader file world) by done.
      rewrite put_input_call_at.
      destruct (PutObject_err env (puts world)
                  (call_at cfg env fileHeader file (drawn world))) eqn:Herr;
        intros [= <- <-].
      right; right. split; [done |]. exists file.
      repeat split; try done.
      * by rewrite Herr.
      * unfold world_with; cbn. f_equal. lia.
    + rewrite file_outcome_unopened by done. intros [= <- <-].
      right; left. done.
  - rewrite file_outcome_invalid by done. intros [= <- <-].
    left. split; [| done].
    rewrite <- isAllowedImage_spec. congruence.
Qed.

Lemma X7_failure_entry_tells_cause_witness :
  file_outcome cfg0 env_down (fh "a.png" 10) world0 =
    (Rejected "a.png: Upload failed",
     world_with world0 [call_at cfg0 env_down (fh "a.png" 10) (zeros 10) 0]) /\
  ((~ ext_allowed "a.png" /\
    "a.png: Upload failed" = "a.png" +:+ ": Invalid type" /\
    world_with world0 [call_at cfg0 env_down (fh "a.png" 10) (zeros 10) 0] = world0) \/
   (ext_allowed "a.png" /\ Open (fh "a.png" 10) = None /\
    "a.png: Upload failed" = "a.png" +:+ ": Failed to open" /\
    world_with world0 [call_at cfg0 env_down (fh "a.png" 10) (zeros 10) 0] = world0) \/
   (ext_allowed "a.png" /\
    exists file,
      Open (fh "a.png" 10) = Some file /\
      PutObject_err env_down (puts world0)
        (call_at cfg0 env_down (fh "a.png" 10) file (drawn world0)) <> None /\
      "a.png: Upload failed" = "a.png" +:+ ": Upload failed" /\
      world_with world0 [call_at cfg0 env_down (fh "a.png" 10) (zeros 10) 0] =
        world_with world0 [call_at cfg0 env_down (fh "a.png" 10) file (drawn world0)])).
Proof.
  split; [reflexivity |].
  apply (X7_failure_entry_tells_cause cfg0 env_down (fh "a.png" 10) world0).
  reflexivity.
Defined.

(** ** Further properties: the bucket *)

(** X8. What the bucket answers changes the response, never the calls:
    under two buckets that differ only in their answers, any request leaves
    the same log of calls and the same number of identifiers drawn.  A
    refused upload is not retried, and does not stop or alter the uploads
    after it. *)
Theorem X8_calls_ignore_answers cfg env1 env2 r world :
  uuid_String env1 = uuid_String env2 ->
  (serve cfg env1 r world).2 = (serve cfg env2 r world).2.
Proof.
  intros Huuid.
  assert (forall files d, loop_calls cfg env1 files d = loop_calls cfg env2 files d)
    as Hcalls.
  { induction files as [| fileHeader rest IH]; intros d; cbn [loop_calls]; [done |].
    unfold call_at, key_at. rewrite Huuid, !IH. done. }
  destruct (serve_cases cfg env1 r world)
    as [[Hne H1] | [(Hauth & Hp & H1) | [(Hauth & Hp & Hm & H1) |
        [(Hauth & Hp & Hm & Hf & H1) | [form Hreq]]]]].
  - rewrite H1. unfold serve, route.
    destruct (String.eqb (Path r) "/upload"); by rewrite authMiddleware_rejects.
  - by rewrite H1, serve_other_path.
  - by rewrite H1, serve_wrong_method.
  - by rewrite H1, serve_bad_form.
  - destruct (serve_upload_cases cfg env1 r form world Hreq)
      as [[H0 ->] | [[H5 ->] | [Hn ->]]];
    destruct (serve_upload_cases cfg env2 r form world Hreq)
      as [[H0' ->] | [[H5' ->] | [Hn' ->]]]; try lia; try done.
    cbn [snd]. by rewrite Hcalls.
Qed.

Lemma X8_calls_ignore_answers_witness :
  uuid_String env_ok = uuid_String env_down /\
  (serve cfg0 env_ok (post_images "s3cret" files_mixed) world0).2 =
  (serve cfg0 env_down (post_images "s3cret" files_mixed) world0).2.
Proof.
  split; [reflexivity |].
  apply (X8_calls_ignore_answers cfg0 env_ok env_down _ world0). reflexivity.
Defined.

(** ** Further properties: the calls of a request *)

Section WorldFacts.

Variable cfg : Config.
Variable env : Env.

(** Whatever the request, the world it leaves is the world it found with
    the calls of the loop for at most five files. *)
Lemma serve_world r world :
  exists files,
    length files <= 5 /\
    (serve cfg env r world).2 =
      world_with world (loop_calls cfg env files (drawn world)).
Proof.
  destruct (serve_cases cfg env r world)
    as [[_ ->] | [(_ & _ & ->) | [(_ & _ & _ & ->) | [(_ & _ & _ & _ & ->) | [form Hreq]]]]];
    try (exists []; cbn [length loop_calls snd]; split; [lia | by rewrite world_with_nil]).
  destruct (serve_upload_cases cfg env r form world Hreq)
    as [[_ ->] | [[_ ->] | [Hn ->]]];
    try (exists []; cbn [length loop_calls snd]; split; [lia | by rewrite world_with_nil]).
  exists (form_files form "images"). split; [lia | done].
Qed.

Lemma new_calls_world_with world calls :
  new_calls world (world_with world calls) = calls.
Proof. unfold new_calls, world_with; cbn. by rewrite drop_app_length. Qed.

Lemma Ext_key_at name d :
  ext_allowed name -> Ext (key_at env name d) = Ext name.
Proof. intros H. unfold key_at. by rewrite str_app_assoc, Ext_key. Qed.

(** The j-th call of the loop uses the (d+j)-th identifier. *)
Lemma loop_calls_lookup files : forall d j input,
  loop_calls cfg env files d !! j = Some input ->
  Bucket input = bucketName cfg /\
  exists name, ext_allowed name /\ Key input = key_at env name (d + j).
Proof.
  induction files as [| fileHeader rest IH]; intros d j input; cbn [loop_calls]; [done |].
  destruct (isAllowedImage fileHeader) eqn:Hallowed; [| by apply IH].
  destruct (Open fileHeader) as [file |]; [| by apply IH].
  destruct j as [| j]; cbn.
  - intros [= <-]. split; [done |]. exists (Filename fileHeader).
    rewrite Nat.add_0_r. split; [by apply isAllowedImage_spec | done].
  - intros Hj. destruct (IH (S d) j input Hj) as (Hb & name & Hext & Hkey).
    split; [done |]. exists name. split; [done |].
    by replace (d + S j) with (S d + j) by lia.
Qed.

Lemma world_with_log_ok world files :
  log_ok cfg env world ->
  log_ok cfg env (world_with world (loop_calls cfg env files (drawn world))).
Proof.
  intros [Hlen Hlog]. split.
  - unfold world_with; cbn. rewrite length_app. lia.
  - intros i input. unfold world_with; cbn [puts].
    intros [Hi | [Hge Hi]]%lookup_app_Some; [by apply Hlog |].
    destruct (loop_calls_lookup files (drawn world) _ input Hi) as (Hb & name & Hext & Hkey).
    split; [done |]. exists name. split; [done |].
    rewrite Hkey. f_equal. lia.
Qed.

Lemma serve_log_ok r world :
  log_ok cfg env world -> log_ok cfg env (serve cfg env r world).2.
Proof.
  intros Hok. destruct (serve_world r world) as (files & _ & ->).
  by apply world_with_log_ok.
Qed.

Lemma str_app_inv_r (t : string) : forall s1 s2 : string,
  s1 +:+ t = s2 +:+ t -> s1 = s2.
Proof.
  assert (forall (c : ascii) (s : string), t <> String c (s +:+ t)) as Hlen.
  { intros c s Heq. apply (f_equal String.length) in Heq.
    cbn in Heq. rewrite str_length_app in Heq. lia. }
  induction s1 as [| c1 s1 IH]; intros [| c2 s2]; cbn; intros Heq.
  - done.
  - by apply Hlen in Heq.
  - symmetry in Heq. by apply Hlen in Heq.
  - injection Heq as -> Heq. f_equal. by apply IH.
Qed.

(** Two keys of accepted names are equal only if their identifiers are. *)
Lemma key_at_inj name1 name2 d1 d2 :
  ext_allowed name1 -> ext_allowed name2 ->
  key_at env name1 d1 = key_at env name2 d2 ->
  uuid_String env d1 = uuid_String env d2.
Proof.
  intros H1 H2 Heq.
  pose proof (f_equal Ext Heq) as Hext. rewrite !Ext_key_at in Hext by done.
  unfold key_at in Heq. rewrite Hext in Heq.
  cbn in Heq. injection Heq as Heq.
  change (uuid_String env d1 +:+ Ext name2 = uuid_String env d2 +:+ Ext name2) in Heq.
  by apply str_app_inv_r in Heq.
Qed.

Lemma log_ok_keys_NoDup world :
  log_ok cfg env world ->
  NoDup (uuid_String env <$> seq 0 (drawn world)) ->
  NoDup (Key <$> puts world).
Proof.
  intros [Hlen Hlog] Hids. apply NoDup_alt. intros i j key Hi Hj.
  rewrite list_lookup_fmap in Hi, Hj.
  destruct (puts world !! i) as [ci |] eqn:Hci; [| done].
  destruct (puts world !! j) as [cj |] eqn:Hcj; [| done].
  cbn in Hi, Hj. injection Hi as Hi. injection Hj as Hj.
  destruct (Hlog i ci Hci) as (_ & ni & Hni & Hki).
  destruct (Hlog j cj Hcj) as (_ & nj & Hnj & Hkj).
  assert (uuid_String env i = uuid_String env j) as Hu.
  { apply (key_at_inj ni nj); [done | done | congruence]. }
  apply lookup_lt_Some in Hci, Hcj.
  eapply (proj1 (NoDup_alt _) Hids i j (uuid_String env i)).
  - rewrite list_lookup_fmap, lookup_seq_lt by lia. done.
  - rewrite list_lookup_fmap, lookup_seq_lt by lia. cbn. by rewrite Hu.
Qed.

End WorldFacts.

(** X9. Whatever the request, the log of calls is only appended to, by at
    most five calls, and as many identifiers are drawn as calls are made. *)
Theorem X9_at_most_five_calls cfg env r world :
  exists calls,
    (serve cfg env r world).2 = world_with world calls /\
    length calls <= 5.
Proof.
  destruct (serve_world cfg env r world) as (files & Hlen & ->).
  eexists. split; [reflexivity |].
  pose proof (loop_calls_length cfg env files (drawn world)). lia.
Qed.

(** X10. Every call a request makes goes to the configured bucket, under
    a key "uploads/" + identifier + extension, where the identifier was
    drawn during this request and the extension is that of an accepted file
    name, verbatim; its content type is the image type of that extension,
    never application/octet-stream. *)
Theorem X10_every_call_is_an_image_upload cfg env r world :
  Forall (call_ok cfg env world (serve cfg env r world).2)
    (new_calls world (serve cfg env r world).2).
Proof.
  destruct (serve_world cfg env r world) as (files & _ & ->).
  rewrite new_calls_world_with. apply Forall_forall. intros input Hin.
  destruct (loop_calls_elem cfg env files (drawn world) input Hin)
    as (fileHeader & file & i & _ & _ & Hext & Hi & ->).
  pose proof (Ext_key_at env (Filename fileHeader) i Hext) as Hkey.
  unfold call_ok. cbn [Bucket ContentType Key call_at].
  rewrite detectContentType_spec, Hkey.
  split; [done |]. split; [done |]. split.
  - pose proof Hext as Hcase. unfold ext_allowed in Hcase. revert Hcase.
    rewrite !elem_of_cons, elem_of_nil.
    intros [-> | [-> | [-> | [-> | []]]]]; cbn; auto.
  - exists i, (Filename fileHeader). unfold world_with; cbn [drawn].
    split; [lia |]. split; [done |]. split; done.
Qed.

(** X11. The log invariant is kept by every request: if the i-th call
    ever made used the i-th identifier, for an accepted name and the
    configured bucket, and calls and identifiers are equally many, this is
    still so after the request, whatever it was and whatever the bucket
    answered. *)
Theorem X11_log_invariant cfg env r world :
  log_ok cfg env world -> log_ok cfg env (serve cfg env r world).2.
Proof. apply serve_log_ok. Qed.

Lemma X11_log_invariant_witness :
  log_ok cfg0 env_ok world1 /\
  log_ok cfg0 env_ok (serve cfg0 env_ok (post_images "s3cret" files_mixed) world1).2.
Proof.
  assert (log_ok cfg0 env_ok world1) as Hok.
  { split; [reflexivity |]. intros [| i] input; cbn; [| done].
    intros [= <-]. split; [reflexivity |]. exists "old.png".
    split; [| reflexivity]. unfold ext_allowed. cbn.
    rewrite !elem_of_cons. auto. }
  split; [exact Hok |].
  exact (X11_log_invariant cfg0 env_ok _ world1 Hok).
Defined.

(** X12. No object is overwritten: as long as the identifiers drawn so
    far are pairwise different, so are the keys of all calls in the log
    after a request, also for files that have the same name. *)
Theorem X12_keys_are_distinct cfg env r world :
  log_ok cfg env world ->
  NoDup (uuid_String env <$> seq 0 (drawn (serve cfg env r world).2)) ->
  NoDup (Key <$> puts (serve cfg env r world).2).
Proof.
  intros Hok Hids. apply (log_ok_keys_NoDup cfg env); [| done].
  by apply serve_log_ok.
Qed.

Lemma X12_keys_are_distinct_witness :
  log_ok cfg0 env_ok world0 /\
  NoDup (uuid_String env_ok <$>
         seq 0 (drawn (serve cfg0 env_ok (post_images "s3cret" files_same_name) world0).2)) /\
  NoDup (Key <$> puts (serve cfg0 env_ok (post_images "s3cret" files_same_name) world0).2).
Proof.
  assert (log_ok cfg0 env_ok world0) as Hok.
  { split; [reflexivity |]. intros i input. cbn. done. }
  assert (NoDup (uuid_String env_ok <$>
     seq 0 (drawn (serve cfg0 env_ok (post_images "s3cret" files_same_name) world0).2)))
    as Hids.
  { vm_compute. apply NoDup_cons. split; [| apply NoDup_singleton].
    rewrite list_elem_of_singleton. discriminate. }
  split; [exact Hok |]. split; [exact Hids |].
  exact (X12_keys_are_distinct cfg0 env_ok _ world0 Hok Hids).
Defined.

(** ** Further properties: extensions *)

Section MoreExtFacts.

Lemma plain_no_ext (s : string) : plain s = true -> Ext s = EmptyString.
Proof.
  intros Hp. unfold Ext.
  change (String.length s) with (0 + String.length s).
  rewrite Ext_loop_skip; [done |].
  intros j Hj. apply plain_get; [done | lia].
Qed.

Lemma ToLower_length s : String.length (ToLower s) = String.length s.
Proof.
  induction s as [| c s IH]; [reflexivity |].
  cbn [ToLower String.length]. by rewrite IH.
Qed.

Lemma ToLower_get s : forall i,
  String.get i (ToLower s) = lower_byte <$> String.get i s.
Proof.
  induction s as [| c s IH]; intros [| i]; simpl; auto.
Qed.

Lemma ToLower_str_from s : forall i,
  str_from i (ToLower s) = ToLower (str_from i s).
Proof.
  induction s as [| c s IH]; intros [| i]; simpl; auto.
Qed.

Lemma Ext_loop_ToLower path n :
  Ext_loop (ToLower path) n = ToLower (Ext_loop path n).
Proof.
  induction n as [| i IH]; cbn [Ext_loop]; [done |].
  rewrite ToLower_get.
  destruct (String.get i path) as [c |]; cbn; [| done].
  rewrite lower_byte_sep, lower_byte_dot.
  destruct (IsPathSeparator c); [done |].
  destruct (Ascii.eqb c "."); [apply ToLower_str_from | apply IH].
Qed.

(** Taking the extension and lowering commute. *)
Lemma Ext_ToLower path : Ext (ToLower path) = ToLower (Ext path).
Proof. unfold Ext. rewrite ToLower_length. apply Ext_loop_ToLower. Qed.

Lemma content_type_of_ext_image e :
  content_type_of_ext e <> "application/octet-stream" <->
  e ∈ [".jpg"; ".jpeg"; ".png"; ".webp"].
Proof.
  unfold content_type_of_ext. rewrite !elem_of_cons, elem_of_nil.
  repeat case_decide; split; intros ?; try done; tauto.
Qed.

End MoreExtFacts.

(** X13. The whitelist and the content-type table agree: a file passes
    the extension test exactly when [detectContentType] gives its name an
    image type rather than application/octet-stream. *)
Theorem X13_whitelist_matches_content_types fileHeader :
  isAllowedImage fileHeader = true <->
  detectContentType (Filename fileHeader) <> "application/octet-stream".
Proof.
  rewrite isAllowedImage_spec, detectContentType_spec, content_type_of_ext_image.
  done.
Qed.

(** X14. Only what follows the last dot of the name counts: for a suffix
    without dot or slash, a name ending in "." + suffix passes the extension
    test exactly when "." + suffix alone does, whatever stands before it
    (other dots and slashes included) and whatever the size and the stream
    of the file. *)
Theorem X14_only_the_last_suffix_counts (stem suffix : string) size stream :
  plain suffix = true ->
  Ext (stem +:+ String "." suffix) = String "." suffix /\
  isAllowedImage {| Filename := stem +:+ String "." suffix; Size := size; Open := stream |}
  = isAllowedImage {| Filename := String "." suffix; Size := 0; Open := None |}.
Proof.
  intros Hp. pose proof (Ext_dot_suffix stem suffix Hp) as H1.
  pose proof (Ext_dot_suffix EmptyString suffix Hp) as H2.
  split; [done |].
  change (EmptyString +:+ String "." suffix) with (String "." suffix) in H2.
  unfold isAllowedImage. cbn [Filename]. cbv zeta.
  by rewrite H1, H2.
Qed.

Lemma X14_only_the_last_suffix_counts_witness :
  plain "PNG" = true /\
  Ext ("../etc/passwd.exe" +:+ String "." "PNG") = String "." "PNG" /\
  isAllowedImage {| Filename := "../etc/passwd.exe" +:+ String "." "PNG";
                    Size := 7; Open := None |}
  = isAllowedImage {| Filename := String "." "PNG"; Size := 0; Open := None |}.
Proof.
  split; [reflexivity |].
  apply (X14_only_the_last_suffix_counts "../etc/passwd.exe" "PNG" 7 None).
  reflexivity.
Defined.

(** X15. A file whose name has no dot (and no slash), the empty name
    included, is recorded as "<filename>: Invalid type"; it is not opened,
    not sent, and no identifier is drawn for it. *)
Theorem X15_no_dot_is_invalid_type cfg env fileHeader world :
  plain (Filename fileHeader) = true ->
  file_outcome cfg env fileHeader world =
    (Rejected (Filename fileHeader +:+ ": Invalid type"), world).
Proof.
  intros Hp. apply file_outcome_invalid.
  unfold isAllowedImage. cbv zeta. by rewrite plain_no_ext.
Qed.

Lemma X15_no_dot_is_invalid_type_witness :
  plain (Filename (fh "png" 3)) = true /\
  file_outcome cfg0 env_ok (fh "png" 3) world0 = (Rejected "png: Invalid type", world0).
Proof.
  split; [reflexivity |].
  apply (X15_no_dot_is_invalid_type cfg0 env_ok (fh "png" 3) world0). reflexivity.
Defined.

(** X16. The letter case of a name plays no part in validation or in the
    content type: two names that are equal up to ASCII case pass or fail the
    extension test together and get the same content type. *)
Theorem X16_case_plays_no_part fileHeader1 fileHeader2 :
  ToLower (Filename fileHeader1) = ToLower (Filename fileHeader2) ->
  isAllowedImage fileHeader1 = isAllowedImage fileHeader2 /\
  detectContentType (Filename fileHeader1) = detectContentType (Filename fileHeader2).
Proof.
  intros Heq.
  assert (ToLower (Ext (Filename fileHeader1)) = ToLower (Ext (Filename fileHeader2)))
    as Hext by (rewrite <- !Ext_ToLower; by rewrite Heq).
  unfold isAllowedImage, detectContentType. cbv zeta. by rewrite Hext.
Qed.

Lemma X16_case_plays_no_part_witness :
  ToLower (Filename (fh "Photo.JpEg" 3)) = ToLower (Filename (fh "photo.jpeg" 9)) /\
  isAllowedImage (fh "Photo.JpEg" 3) = isAllowedImage (fh "photo.jpeg" 9) /\
  detectContentType (Filename (fh "Photo.JpEg" 3)) =
    detectContentType (Filename (fh "photo.jpeg" 9)).
Proof.
  split; [reflexivity |].
  apply (X16_case_plays_no_part (fh "Photo.JpEg" 3) (fh "photo.jpeg" 9)). reflexivity.
Defined.

(** ** Further properties: the bucket's answers and the response *)

Section AnswerFacts.

Variable cfg : Config.
Variable env : Env.

(** With a bucket that accepts every call, the successes are the URLs of
    the calls made, in order. *)
Lemma outcomes_accepting files : accepts_all env -> forall world,
  successes (outcomes cfg env files world).1 =
  url_of cfg <$> loop_calls cfg env files (drawn world).
Proof.
  intros Hacc. induction files as [| fileHeader rest IH]; intros world; [done |].
  cbn [outcomes loop_calls]. unfold_M.
  destruct (isAllowedImage fileHeader) eqn:Hallowed.
  - destruct (Open fileHeader) as [file |] eqn:Hopen.
    + rewrite (file_outcome_sent cfg env fileHeader file world) by done.
      rewrite Hacc.
      match goal with |- context [outcomes cfg env rest ?w] =>
        specialize (IH w); destruct (outcomes cfg env rest w) as [os w2] end.
      cbn [fst successes omap] in *. cbn. f_equal. exact IH.
    + rewrite file_outcome_unopened by done.
      specialize (IH world). destruct (outcomes cfg env rest world) as [os w2].
      exact IH.
  - rewrite file_outcome_invalid by done.
    specialize (IH world). destruct (outcomes cfg env rest world) as [os w2].
    exact IH.
Qed.

(** With a bucket that refuses every call, there is no success. *)
Lemma outcomes_refusing files : refuses_all env -> forall world,
  successes (outcomes cfg env files world).1 = [].
Proof.
  intros Href. induction files as [| fileHeader rest IH]; intros world; [done |].
  cbn [outcomes]. unfold_M.
  destruct (isAllowedImage fileHeader) eqn:Hallowed.
  - destruct (Open fileHeader) as [file |] eqn:Hopen.
    + rewrite (file_outcome_sent cfg env fileHeader file world) by done.
      pose proof (Href (puts world) (put_input cfg env fileHeader file world)) as Hne.
      destruct (PutObject_err env (puts world) (put_input cfg env fileHeader file world));
        [| done].
      match goal with |- context [outcomes cfg env rest ?w] =>
        specialize (IH w); destruct (outcomes cfg env rest w) as [os w2] end.
      exact IH.
    + rewrite file_outcome_unopened by done.
      specialize (IH world). destruct (outcomes cfg env rest world) as [os w2].
      exact IH.
  - rewrite file_outcome_invalid by done.
    specialize (IH world). destruct (outcomes cfg env rest world) as [os w2].
    exact IH.
Qed.

Lemma loop_calls_all files : forall d,
  Forall (fun fileHeader => reaches_backend fileHeader = true) files ->
  length (loop_calls cfg env files d) = length files.
Proof.
  induction files as [| fileHeader rest IH]; intros d Hall; [done |].
  apply Forall_cons in Hall as [Hhead Hrest].
  unfold reaches_backend in Hhead. apply andb_prop in Hhead as [Hallowed Hopen].
  apply bool_decide_eq_true_1 in Hopen as [file Hopen].
  cbn [loop_calls]. rewrite Hallowed, Hopen. cbn [length]. by rewrite IH.
Qed.

End AnswerFacts.

(** X17. The good case in full.  When the bucket accepts every call and
    each of the N files (1 <= N <= 5) has an allowed extension and opens,
    the answer is 200 "N image(s) uploaded successfully" with no failure
    entry; its i-th URL is the public URL, a slash and the key of the i-th
    call, and the i-th call uses the i-th identifier drawn by the request. *)
Theorem X17_all_files_uploaded cfg env r form world :
  accepts_all env ->
  upload_request cfg r form ->
  1 <= length (form_files form "images") <= 5 ->
  Forall (fun fileHeader => reaches_backend fileHeader = true) (form_files form "images") ->
  let calls := loop_calls cfg env (form_files form "images") (drawn world) in
  length calls = length (form_files form "images") /\
  serve cfg env r world =
    (api_response 200 (url_of cfg <$> calls) []
       (itoa (length (form_files form "images")) +:+ " image(s) uploaded successfully"),
     world_with world calls).
Proof.
  intros Hacc Hreq Hn Hall calls.
  pose proof (loop_calls_all cfg env _ (drawn world) Hall) as Hlen. fold calls in Hlen.
  split; [done |].
  destruct (serve_upload_cases cfg env r form world Hreq)
    as [[H0 _] | [[H5 _] | [_ ->]]]; [lia | lia |].
  fold calls. f_equal.
  pose proof (outcomes_accepting cfg env (form_files form "images") Hacc world) as Hs.
  pose proof (outcomes_length cfg env (form_files form "images") world) as Hos.
  fold calls in Hs.
  set (os := (outcomes cfg env (form_files form "images") world).1) in *.
  pose proof (successes_failures_length os) as Hsum.
  assert (length (successes os) = length (form_files form "images")) as Hk
    by (rewrite Hs, length_fmap; done).
  assert (failures os = []) as Hf by (apply nil_length_inv; lia).
  unfold upload_response. cbv zeta. rewrite Hf, Hk, Hs. cbn [length].
  destruct (Nat.eqb_spec (length (form_files form "images")) 0) as [| _]; [lia |].
  cbn. by rewrite sendJSONMulti_new.
Qed.

Lemma X17_all_files_uploaded_witness :
  accepts_all env_ok /\
  upload_request cfg0 (post_images "s3cret" files_same_name) (form_of files_same_name) /\
  1 <= length (form_files (form_of files_same_name) "images") <= 5 /\
  Forall (fun fileHeader => reaches_backend fileHeader = true)
    (form_files (form_of files_same_name) "images") /\
  serve cfg0 env_ok (post_images "s3cret" files_same_name) world0 =
    (api_response 200
       ["https://cdn.example.com/uploads/id0.png"; "https://cdn.example.com/uploads/id1.png"]
       [] "2 image(s) uploaded successfully",
     world_with world0
       (loop_calls cfg0 env_ok (form_files (form_of files_same_name) "images") 0)).
Proof.
  assert (accepts_all env_ok) as Hacc by (intros before input; reflexivity).
  assert (Forall (fun fileHeader => reaches_backend fileHeader = true)
            (form_files (form_of files_same_name) "images")) as Hall
    by (repeat constructor).
  split; [exact Hacc |]. split; [repeat split |].
  split; [vm_compute; lia |]. split; [exact Hall |].
  refine (proj2 (X17_all_files_uploaded cfg0 env_ok _ (form_of files_same_name) world0
                   Hacc _ _ Hall)).
  - repeat split.
  - vm_compute; lia.
Defined.

(** X18. A bucket that is down.  When the bucket refuses every call, a
    request with N files (1 <= N <= 5) is answered 400 "All uploads failed"
    with N failure entries and a null URL list; the calls for the files that
    passed validation and opened were made all the same, one identifier
    each. *)
Theorem X18_bucket_down_is_400 cfg env r form world :
  refuses_all env ->
  upload_request cfg r form ->
  1 <= length (form_files form "images") <= 5 ->
  exists failed,
    length failed = length (form_files form "images") /\
    serve cfg env r world =
      (api_response 400 [] failed "All uploads failed",
       world_with world (loop_calls cfg env (form_files form "images") (drawn world))).
Proof.
  intros Href Hreq Hn.
  destruct (serve_upload_cases cfg env r form world Hreq)
    as [[H0 _] | [[H5 _] | [_ ->]]]; [lia | lia |].
  pose proof (outcomes_refusing cfg env (form_files form "images") Href world) as Hs.
  pose proof (outcomes_length cfg env (form_files form "images") world) as Hos.
  set (os := (outcomes cfg env (form_files form "images") world).1) in *.
  pose proof (successes_failures_length os) as Hsum.
  exists (failures os). split; [rewrite Hs in Hsum; cbn in Hsum; lia |].
  f_equal. unfold upload_response. cbv zeta. rewrite Hs. cbn.
  by rewrite sendJSONMulti_new.
Qed.

Lemma X18_bucket_down_is_400_witness :
  refuses_all env_down /\
  upload_request cfg0 (post_images "s3cret" files_good) (form_of files_good) /\
  1 <= length (form_files (form_of files_good) "images") <= 5 /\
  exists failed,
    length failed = length (form_files (form_of files_good) "images") /\
    serve cfg0 env_down (post_images "s3cret" files_good) world0 =
      (api_response 400 [] failed "All uploads failed",
       world_with world0
         (loop_calls cfg0 env_down (form_files (form_of files_good) "images")
            (drawn world0))).
Proof.
  assert (refuses_all env_down) as Href by (intros before input; discriminate).
  split; [exact Href |]. split; [repeat split |].
  split; [vm_compute; lia |].
  refine (X18_bucket_down_is_400 cfg0 env_down _ (form_of files_good) world0 Href _ _).
  - repeat split.
  - vm_compute; lia.
Defined.

Section ValidationFacts.

Variable cfg : Config.
Variable env : Env.

Lemma loop_calls_cons fileHeader rest d :
  length (loop_calls cfg env (fileHeader :: rest) d) =
  if reaches_backend fileHeader
  then S (length (loop_calls cfg env rest (S d)))
  else length (loop_calls cfg env rest d).
Proof.
  cbn [loop_calls]. unfold reaches_backend.
  destruct (isAllowedImage fileHeader); cbn [andb]; [| done].
  destruct (Open fileHeader) as [file |].
  - by rewrite bool_decide_eq_true_2 by eauto.
  - by rewrite bool_decide_eq_false_2 by (intros [? [=]]).
Qed.

Lemma loop_calls_count files : forall d,
  length (loop_calls cfg env files d) = length (filter reaches_backend files).
Proof.
  induction files as [| fileHeader rest IH]; intros d; [done |].
  rewrite loop_calls_cons, filter_cons.
  destruct (reaches_backend fileHeader); cbn.
  - rewrite decide_True by done. cbn. by rewrite IH.
  - rewrite decide_False by (intros []). apply IH.
Qed.

(** When no file passes validation and opens, nothing succeeds and the
    world is untouched, whatever the bucket. *)
Lemma outcomes_none files :
  Forall (fun fileHeader => reaches_backend fileHeader = false) files ->
  forall world,
    successes (outcomes cfg env files world).1 = [] /\
    (outcomes cfg env files world).2 = world.
Proof.
  induction files as [| fileHeader rest IH]; intros Hall world; [done |].
  apply Forall_cons in Hall as [Hhead Hrest]. specialize (IH Hrest world).
  cbn [outcomes]. unfold_M. unfold reaches_backend in Hhead.
  destruct (isAllowedImage fileHeader) eqn:Hallowed; cbn [andb] in Hhead.
  - destruct (Open fileHeader) as [file |] eqn:Hopen.
    + apply bool_decide_eq_false_1 in Hhead. destruct Hhead. eauto.
    + rewrite file_outcome_unopened by done.
      by destruct (outcomes cfg env rest world) as [os w2].
  - rewrite file_outcome_invalid by done.
    by destruct (outcomes cfg env rest world) as [os w2].
Qed.

End ValidationFacts.

(** X21. With a bucket that accepts every call, validation alone decides
    between partial and full success: if k of the N files (1 <= N <= 5) have
    an allowed extension and open, with 0 < k < N, the answer is 207 "k of N
    images uploaded" with the k URLs of the calls made, in order, and N - k
    failure entries. *)
Theorem X21_partial_success cfg env r form world :
  accepts_all env ->
  upload_request cfg r form ->
  1 <= length (form_files form "images") <= 5 ->
  0 < length (filter reaches_backend (form_files form "images"))
    < length (form_files form "images") ->
  let n := length (form_files form "images") in
  let k := length (filter reaches_backend (form_files form "images")) in
  let calls := loop_calls cfg env (form_files form "images") (drawn world) in
  exists failed,
    length calls = k /\ length failed = n - k /\
    serve cfg env r world =
      (api_response 207 (url_of cfg <$> calls) failed
         (itoa k +:+ " of " +:+ itoa n +:+ " images uploaded"),
       world_with world calls).
Proof.
  intros Hacc Hreq Hn Hk n k calls.
  pose proof (loop_calls_count cfg env (form_files form "images") (drawn world)) as Hlen.
  fold calls k in Hlen.
  destruct (serve_upload_cases cfg env r form world Hreq)
    as [[H0 _] | [[H5 _] | [_ ->]]]; [lia | lia |].
  pose proof (outcomes_accepting cfg env (form_files form "images") Hacc world) as Hs.
  pose proof (outcomes_length cfg env (form_files form "images") world) as Hos.
  fold calls in Hs. fold n in Hos.
  set (os := (outcomes cfg env (form_files form "images") world).1) in *.
  pose proof (successes_failures_length os) as Hsum.
  assert (length (successes os) = k) as Hsk by (rewrite Hs, length_fmap; done).
  exists (failures os). split; [done |]. split; [lia |].
  fold calls n. f_equal.
  unfold upload_response. cbv zeta. rewrite Hsk.
  destruct (Nat.eqb_spec k 0) as [| _]; [subst k n; lia |].
  destruct (Nat.ltb_spec 0 (length (failures os))) as [_ |]; [| subst k n; lia].
  by rewrite sendJSONMulti_new, Hs.
Qed.

Lemma X21_partial_success_witness :
  accepts_all env_ok /\
  upload_request cfg0 (post_images "s3cret" files_mixed) (form_of files_mixed) /\
  1 <= length (form_files (form_of files_mixed) "images") <= 5 /\
  0 < length (filter reaches_backend (form_files (form_of files_mixed) "images"))
    < length (form_files (form_of files_mixed) "images") /\
  exists failed,
    length (loop_calls cfg0 env_ok (form_files (form_of files_mixed) "images")
              (drawn world0)) =
      length (filter reaches_backend (form_files (form_of files_mixed) "images")) /\
    length failed =
      length (form_files (form_of files_mixed) "images") -
      length (filter reaches_backend (form_files (form_of files_mixed) "images")) /\
    serve cfg0 env_ok (post_images "s3cret" files_mixed) world0 =
      (api_response 207
         (url_of cfg0 <$> loop_calls cfg0 env_ok
                            (form_files (form_of files_mixed) "images") (drawn world0))
         failed
         (itoa (length (filter reaches_backend (form_files (form_of files_mixed) "images")))
          +:+ " of " +:+ itoa (length (form_files (form_of files_mixed) "images"))
          +:+ " images uploaded"),
       world_with world0
         (loop_calls cfg0 env_ok (form_files (form_of files_mixed) "images")
            (drawn world0))).
Proof.
  assert (accepts_all env_ok) as Hacc by (intros before input; reflexivity).
  split; [exact Hacc |]. split; [repeat split |].
  split; [vm_compute; lia |]. split; [vm_compute; lia |].
  refine (X21_partial_success cfg0 env_ok _ (form_of files_mixed) world0 Hacc _ _ _).
  - repeat split.
  - vm_compute; lia.
  - vm_compute; lia.
Defined.

(** X22. When none of the N files (1 <= N <= 5) has an allowed extension
    and opens, the answer is 400 "All uploads failed" with N failure entries,
    whatever the bucket would have answered; nothing is sent to the bucket
    and no identifier is drawn. *)
Theorem X22_nothing_valid_nothing_sent cfg env r form world :
  upload_request cfg r form ->
  1 <= length (form_files form "images") <= 5 ->
  Forall (fun fileHeader => reaches_backend fileHeader = false) (form_files form "images") ->
  exists failed,
    length failed = length (form_files form "images") /\
    serve cfg env r world = (api_response 400 [] failed "All uploads failed", world).
Proof.
  intros Hreq Hn Hall.
  rewrite (serve_upload_request cfg env r form world Hreq). cbv zeta.
  destruct (Nat.eqb_spec (length (form_files form "images")) 0) as [| _]; [lia |].
  destruct (Nat.ltb_spec 5 (length (form_files form "images"))) as [| _]; [lia |].
  destruct (outcomes_none cfg env _ Hall world) as [Hs Hw].
  pose proof (outcomes_length cfg env (form_files form "images") world) as Hos.
  destruct (outcomes cfg env (form_files form "images") world) as [os world'].
  cbn [fst snd] in *. subst world'.
  pose proof (successes_failures_length os) as Hsum.
  exists (failures os). split; [rewrite Hs in Hsum; cbn in Hsum; lia |].
  unfold upload_response. cbv zeta. rewrite Hs. cbn.
  by rewrite sendJSONMulti_new.
Qed.

Lemma X22_nothing_valid_nothing_sent_witness :
  upload_request cfg0 (post_images "s3cret" files_bad) (form_of files_bad) /\
  1 <= length (form_files (form_of files_bad) "images") <= 5 /\
  Forall (fun fileHeader => reaches_backend fileHeader = false)
    (form_files (form_of files_bad) "images") /\
  exists failed,
    length failed = length (form_files (form_of files_bad) "images") /\
    serve cfg0 env_ok (post_images "s3cret" files_bad) world0 =
      (api_response 400 [] failed "All uploads failed", world0).
Proof.
  assert (Forall (fun fileHeader => reaches_backend fileHeader = false)
            (form_files (form_of files_bad) "images")) as Hall
    by (repeat constructor).
  split; [repeat split |]. split; [vm_compute; lia |]. split; [exact Hall |].
  refine (X22_nothing_valid_nothing_sent cfg0 env_ok _ (form_of files_bad) world0 _ _ Hall).
  - repeat split.
  - vm_compute; lia.
Defined.
